(** * Change auditing of tracked entities (redash/models/changes.py)

    A shallow embedding of the change ledger ([Change], [to_dict],
    [last_change]) and of the mutation tracker ([track_changes], with the
    [__setattr__] hook, [get_object_changes], [get_relation_attr] and
    [record_changes]), followed by the properties of the program. *)

From Stdlib Require Import String List ZArith Bool Lia Permutation Sorted.
Import ListNotations.
Local Open Scope string_scope.
Local Open Scope list_scope.

Set Implicit Arguments.
Set Warnings "-register-all".

(* ================================================================== *)
(** ** Python values *)

(** Object identities: two references denote the same object exactly when
    the numbers are equal. *)
Definition oid := nat.

(** Identity of a session (unit of work). *)
Definition sid := nat.

(** Identity of a class; the text is only a label, [==] on classes is
    identity. *)
Definition class := string.

(** Values an attribute of an entity holds.  Floating point values and
    containers are left out of the attribute values. *)
Inductive scalar : Type :=
| SNone
| SBool (b : bool)
| SInt (z : Z)
| SStr (s : string)
| SRef (o : oid).

(** [Change.Type]: a [str] enumeration with three members. *)
Inductive Type_ : Type := Created | Modified | Deleted.

Definition Type_eqb (a b : Type_) : bool :=
  match a, b with
  | Created, Created | Modified, Modified | Deleted, Deleted => true
  | _, _ => false
  end.

(** Structured values: what the JSON column [change] and the result of
    [to_dict] hold.  A dictionary is kept in insertion order; its keys are
    scalars (a key may be [None]). *)
Inductive pyval : Type :=
| Atom (v : scalar)
| Enum (t : Type_)
| PyList (l : list pyval)
| PyDict (d : list (scalar * pyval)).

(** Python's [==] on attribute values: [bool] is a subclass of [int]
    ([True == 1]), objects without [__eq__] compare by identity. *)
Definition py_eq (a b : scalar) : bool :=
  match a, b with
  | SNone, SNone => true
  | SBool x, SBool y => Bool.eqb x y
  | SBool x, SInt y | SInt y, SBool x => Z.eqb (Z.b2z x) y
  | SInt x, SInt y => Z.eqb x y
  | SStr x, SStr y => String.eqb x y
  | SRef x, SRef y => Nat.eqb x y
  | _, _ => false
  end.

Definition py_ne (a b : scalar) : bool := negb (py_eq a b).

(* ================================================================== *)
(** ** Dictionaries with text keys

    A Python [dict]: insertion ordered, one binding per key.  Assigning to
    a key that is present replaces the value where it stands; a new key goes
    to the end. *)
Section Dict.
Variable V : Type.

Definition dict := list (string * V).

Fixpoint dict_get (k : string) (d : dict) : option V :=
  match d with
  | [] => None
  | (k', v) :: d' => if String.eqb k k' then Some v else dict_get k d'
  end.

(** [d.get(k, default)] *)
Definition dict_get_default (k : string) (default : V) (d : dict) : V :=
  match dict_get k d with Some v => v | None => default end.

(** [d[k] = v] *)
Fixpoint dict_set (k : string) (v : V) (d : dict) : dict :=
  match d with
  | [] => [(k, v)]
  | (k', v') :: d' =>
      if String.eqb k k' then (k, v) :: d' else (k', v') :: dict_set k v d'
  end.

Definition dict_keys (d : dict) : list string := map fst d.

(** Truth value of a dictionary: non-empty. *)
Definition dict_bool (d : dict) : bool :=
  match d with [] => false | _ :: _ => true end.
End Dict.

Arguments dict_get {V} k d.
Arguments dict_get_default {V} k default d.
Arguments dict_set {V} k v d.
Arguments dict_keys {V} d.
Arguments dict_bool {V} d.

(** Equality of stored values, [None] with [None] included: the test a
    query filter makes, and the comparison of dictionary keys. *)
Definition scalar_eqb (a b : scalar) : bool :=
  match a, b with
  | SNone, SNone => true
  | SBool x, SBool y => Bool.eqb x y
  | SInt x, SInt y => Z.eqb x y
  | SStr x, SStr y => String.eqb x y
  | SRef x, SRef y => Nat.eqb x y
  | _, _ => false
  end.

(** [d.get(k)] on a structured dictionary. *)
Fixpoint py_get (k : scalar) (d : list (scalar * pyval)) : option pyval :=
  match d with
  | [] => None
  | (k', v) :: d' => if scalar_eqb k k' then Some v else py_get k d'
  end.

(** [v[name]] for a structured value that is a dictionary. *)
Definition py_field (name : string) (v : pyval) : option pyval :=
  match v with
  | PyDict d => py_get (SStr name) d
  | _ => None
  end.

(** [key in names] *)
Definition mem (key : string) (names : list string) : bool :=
  existsb (String.eqb key) names.

(* ================================================================== *)
(** ** Exceptions and results *)

Inductive exn : Type :=
| AttributeError
| TypeError
| ValueError
| NoInspectionAvailable.

Inductive res (A : Type) : Type :=
| Ok (a : A)
| Raise (e : exn).

Arguments Ok {A} a.
Arguments Raise {A} e.

Definition res_bind {A B : Type} (r : res A) (k : A -> res B) : res B :=
  match r with
  | Ok a => k a
  | Raise e => Raise e
  end.

(* ================================================================== *)
(** ** Reflection metadata ([sqlalchemy.inspection.inspect])

    For a mapped class the mapper lists the column attributes (attribute
    key and the columns behind it) and the relationships (attribute key and
    the class at the other end), both in declaration order. *)
Record Mapper : Type := {
  column_attrs : list (string * list string);
  relationships : list (string * class)
}.

(* ================================================================== *)
(** ** The mutation tracker *)

Module Tracking.

(** The dictionary [{"previous": ..., "current": ...}] kept per attribute. *)
Record change_rec : Type := {
  previous : scalar;
  current : scalar
}.

(** A tracked instance: its class, its attribute values and the session it
    is attached to ([object_session(self)]).  A mapped column that was never
    assigned is present with value [SNone]. *)
Record instance : Type := {
  __class__ : class;
  attrs : dict scalar;
  session : option sid
}.

(** [Change(object=..., object_version=..., user=..., change=...)]: the
    entry handed to [session.add], as the keyword arguments construct it. *)
Record Change : Type := {
  object : scalar;
  object_version : scalar;
  user : scalar;
  change : pyval
}.

(** The state the tracker of one wrapped class works on: the instances of
    the class, the class attribute [__changes__] (one dictionary, created
    with the class) and what each session was given by [add]. *)
Record world : Type := {
  heap : oid -> instance;
  __changes__ : dict change_rec;
  added : list (sid * Change)
}.

(** A computation: reads and updates the world, returns or raises.  The
    updates made before an exception stay. *)
Definition M (A : Type) : Type := world -> res A * world.

Definition ret {A : Type} (a : A) : M A := fun w => (Ok a, w).

Definition raise {A : Type} (e : exn) : M A := fun w => (Raise e, w).

Definition bind {A B : Type} (m : M A) (k : A -> M B) : M B :=
  fun w =>
    match m w with
    | (Ok a, w') => k a w'
    | (Raise e, w') => (Raise e, w')
    end.

Definition lift {A : Type} (r : res A) : M A := fun w => (r, w).

Definition gets {A : Type} (f : world -> A) : M A := fun w => (Ok (f w), w).

Definition modify (f : world -> world) : M unit := fun w => (Ok tt, f w).

Declare Scope py_scope.
Delimit Scope py_scope with py.
Notation "x <- m ;; k" := (bind m (fun x => k))
  (at level 61, m at next level, right associativity) : py_scope.
Notation "m ;;; k" := (bind m (fun _ => k))
  (at level 61, right associativity) : py_scope.
Local Open Scope py_scope.

(** *** World updates *)

Definition set_changes (c : dict change_rec) (w : world) : world :=
  {| heap := heap w; __changes__ := c; added := added w |}.

Definition set_attr (self : oid) (key : string) (value : scalar) (w : world) : world :=
  {| heap := fun o =>
       if Nat.eqb o self
       then {| __class__ := __class__ (heap w self);
               attrs := dict_set key value (attrs (heap w self));
               session := session (heap w self) |}
       else heap w o;
     __changes__ := __changes__ w;
     added := added w |}.

(** [session.add(entry)] *)
Definition session_add (s : sid) (entry : Change) : M unit :=
  modify (fun w =>
    {| heap := heap w; __changes__ := __changes__ w;
       added := added w ++ [(s, entry)] |}).

(** *** Attribute access *)

(** [getattr(self, key)] *)
Definition getattr (self : oid) (key : string) : M scalar :=
  fun w =>
    match dict_get key (attrs (heap w self)) with
    | Some v => (Ok v, w)
    | None => (Raise AttributeError, w)
    end.

(** [getattr(self, name, default)]: the default stands in for a missing
    attribute only; a name that is not text is a [TypeError]. *)
Definition getattr_default (self : oid) (name : option string) (default : scalar)
  : M scalar :=
  match name with
  | None => raise TypeError
  | Some key => fun w => (Ok (dict_get_default key default (attrs (heap w self))), w)
  end.

(** [object_session(self)] *)
Definition object_session (self : oid) : M (option sid) :=
  gets (fun w => session (heap w self)).

(** *** Reflection *)

Section Tracker.
(** [inspect(c)]: the mapper of a mapped class. *)
Variable inspect : class -> option Mapper.

Definition inspect_ (c : class) : res Mapper :=
  match inspect c with
  | Some m => Ok m
  | None => Raise NoInspectionAvailable
  end.

(** Lines 63-66: [columns[attr.key] = col.name] for every column
    attribute, where [col, = attr.columns] needs exactly one column. *)
Fixpoint build_columns (cas : list (string * list string)) (columns : dict string)
  : res (dict string) :=
  match cas with
  | [] => Ok columns
  | (key, [col]) :: rest => build_columns rest (dict_set key col columns)
  | (_, _) :: _ => Raise ValueError
  end.

(** Lines 68-71: the loop over [changes.items()]. *)
Fixpoint collect_changes (columns : dict string) (items : dict change_rec)
         (result : dict change_rec) : dict change_rec :=
  match items with
  | [] => result
  | (key, change) :: rest =>
      if py_ne (current change) (previous change)
      then collect_changes columns rest
             (dict_set (dict_get_default key key columns) change result)
      else collect_changes columns rest result
  end.

(** [get_object_changes(obj, reset=True)].  The result is the mapping as
    it stands when the function returns. *)
Definition get_object_changes (obj : oid) (reset : bool) : M (dict change_rec) :=
  changes <- gets __changes__ ;;
  if dict_bool changes then
    c <- gets (fun w => __class__ (heap w obj)) ;;
    m <- lift (inspect_ c) ;;
    columns <- lift (build_columns (column_attrs m) []) ;;
    let result := collect_changes columns changes [] in
    (if reset then modify (set_changes []) else ret tt) ;;;
    ret result
  else ret [].

(** [get_relation_attr(source, target)] *)
Fixpoint first_relation (items : list (string * class)) (target : class)
  : option string :=
  match items with
  | [] => None
  | (key, entity) :: rest =>
      if String.eqb entity target then Some key else first_relation rest target
  end.

Definition get_relation_attr (source target : class) : res (option string) :=
  res_bind (inspect_ source) (fun m => Ok (first_relation (relationships m) target)).

(** *** [track_changes(attributes, parent)(cls)] *)

Definition excluded : list string := ["id"; "created_at"; "updated_at"; "version"].

(** [set(attributes) - {"id", "created_at", "updated_at", "version"}] *)
Definition tracked (attributes : list string) : list string :=
  filter (fun a => negb (mem a excluded)) attributes.

Variable attributes : list string.
Variable parent : option class.
Variable cls : class.

(** [ChangeTracking.__setattr__(self, key, value)] *)
Definition __setattr__ (self : oid) (key : string) (value : scalar) : M unit :=
  (if mem key (tracked attributes) then
     prev <- getattr self key ;;
     changes <- gets __changes__ ;;
     let change := dict_get_default key {| previous := prev; current := SNone |} changes in
     let change := {| previous := previous change; current := value |} in
     modify (fun w => set_changes (dict_set key change (__changes__ w)) w)
   else ret tt) ;;;
  modify (set_attr self key value).

Definition key_of (name : option string) : scalar :=
  match name with Some k => SStr k | None => SNone end.

Definition change_to_py (c : change_rec) : pyval :=
  PyDict [(SStr "previous", Atom (previous c)); (SStr "current", Atom (current c))].

Definition changes_to_py (d : dict change_rec) : pyval :=
  PyDict (map (fun kc => (SStr (fst kc), change_to_py (snd kc))) d).

(** [ChangeTracking.record_changes(self, changed_by, change_type)] *)
Definition record_changes (self : oid) (changed_by : scalar) (change_type : Type_)
  : M unit :=
  session <- object_session self ;;
  match session with
  | None => ret tt
  | Some session =>
      changes <- get_object_changes self true ;;
      if negb (dict_bool changes) && Type_eqb change_type Modified then ret tt
      else
        let obj := SRef self in
        let changes :=
          [(SStr "type", Enum change_type); (SStr "changes", changes_to_py changes)] in
        oc <- match parent with
              | Some parent =>
                  parent_attr <- lift (get_relation_attr parent cls) ;;
                  id <- getattr self "id" ;;
                  let changes :=
                    changes ++
                    [(SStr "id", PyDict [(SStr "previous", Atom id);
                                         (SStr "current", Atom id)])] in
                  let changes :=
                    [(SStr "type", Enum Modified);
                     (SStr "changes",
                       PyDict [(key_of parent_attr, PyList [PyDict changes])])] in
                  parent_attr <- lift (get_relation_attr cls parent) ;;
                  obj <- getattr_default self parent_attr (SRef self) ;;
                  ret (obj, changes)
              | None => ret (obj, changes)
              end ;;
        version <- getattr_default self (Some "version") SNone ;;
        session_add session
          {| object := fst oc;
             object_version := version;
             user := changed_by;
             change := PyDict (snd oc) |}
  end.

End Tracker.

(** *** Shapes the properties speak of *)

(** The entries the loop of [get_object_changes] keeps. *)
Definition changed (kc : string * change_rec) : bool :=
  py_ne (current (snd kc)) (previous (snd kc)).

(** The payload of an entry that is not redirected to a parent. *)
Definition payload (change_type : Type_) (changes : dict change_rec)
  : list (scalar * pyval) :=
  [(SStr "type", Enum change_type); (SStr "changes", changes_to_py changes)].

(** The payload of an entry redirected to the parent: one nested record
    under the name of the relationship from the parent. *)
Definition parent_payload (parent_attr : option string) (change_type : Type_)
           (changes : dict change_rec) (id : scalar) : list (scalar * pyval) :=
  [(SStr "type", Enum Modified);
   (SStr "changes",
     PyDict [(key_of parent_attr,
              PyList [PyDict [(SStr "type", Enum change_type);
                              (SStr "changes", changes_to_py changes);
                              (SStr "id", PyDict [(SStr "previous", Atom id);
                                                  (SStr "current", Atom id)])]])])].

(** The change reported under the column [col]: that of the last entry of
    the buffer, in its order, whose values differ and whose attribute is
    stored in [col]. *)
Fixpoint last_changed (columns : dict string) (col : string) (items : dict change_rec)
         (found : option change_rec) : option change_rec :=
  match items with
  | [] => found
  | (key, c) :: rest =>
      last_changed columns col rest
        (if changed (key, c) && String.eqb (dict_get_default key key columns) col
         then Some c else found)
  end.

(** The world after [session.add(entry)]. *)
Definition staged (s : sid) (entry : Change) (w : world) : world :=
  {| heap := heap w; __changes__ := __changes__ w; added := added w ++ [(s, entry)] |}.

End Tracking.

(* ================================================================== *)
(** ** Histories of a tracked class

    What a client does with the instances of one wrapped class: assign an
    attribute, extract the changes, record them.  An exception ends the
    call that raised it, not the history. *)

Module History.
Import Tracking.

Inductive op : Type :=
| Assign (self : oid) (key : string) (value : scalar)
| Extract (obj : oid) (reset : bool)
| Record_ (self : oid) (changed_by : scalar) (change_type : Type_).

Section Run.
Variable inspect : class -> option Mapper.
Variable attributes : list string.
Variable parent : option class.
Variable cls : class.

Definition exec (o : op) (w : world) : world :=
  match o with
  | Assign self key value => snd (__setattr__ attributes self key value w)
  | Extract obj reset => snd (get_object_changes inspect obj reset w)
  | Record_ self changed_by change_type =>
      snd (record_changes inspect parent cls self changed_by change_type w)
  end.

Definition run (ops : list op) (w : world) : world := fold_left (fun w o => exec o w) ops w.

(** The statements [self.key = v1; ...; self.key = vn] in sequence: an
    exception in one ends the sequence. *)
Fixpoint assign_seq (self : oid) (key : string) (values : list scalar) : M unit :=
  match values with
  | [] => ret tt
  | v :: rest => bind (__setattr__ attributes self key v) (fun _ => assign_seq self key rest)
  end.
End Run.

(** Every key of the buffer is a tracked name. *)
Definition keys_tracked (attributes : list string) (w : world) : Prop :=
  forall key, In key (dict_keys (__changes__ w)) -> mem key (tracked attributes) = true.

(** The world when the wrapped class has just been created: [__changes__]
    is the empty dictionary of the class body and no session was given
    anything. *)
Definition fresh (h : oid -> instance) : world :=
  {| heap := h; __changes__ := []; added := [] |}.

End History.

(* ================================================================== *)
(** ** A small application

    An order and its line items: [Order.items] points at [LineItem],
    [LineItem.order] points back.  [LineItem] is wrapped by
    [track_changes]; the instances 7 and 8 are line items of the order 100
    in session 1, the instance 9 is a line item no session holds. *)

Module Sample.
Import Tracking.

Definition Order : class := "Order".
Definition LineItem : class := "LineItem".
(** The class [ChangeTracking] that wraps [LineItem]: a subclass, mapped
    like its base. *)
Definition TrackedLineItem : class := "ChangeTracking(LineItem)".

Definition order_mapper : Mapper :=
  {| column_attrs := [("id", ["id"]); ("name", ["name"])];
     relationships := [("items", LineItem)] |}.

Definition item_mapper : Mapper :=
  {| column_attrs := [("id", ["id"]); ("qty", ["qty"]); ("order_id", ["order_id"])];
     relationships := [("order", Order)] |}.

Definition inspect (c : class) : option Mapper :=
  if String.eqb c Order then Some order_mapper
  else if String.eqb c LineItem then Some item_mapper
  else if String.eqb c TrackedLineItem then Some item_mapper
  else None.

(** The same classes when [LineItem] declares no relationship to [Order]. *)
Definition one_way_mapper : Mapper :=
  {| column_attrs := column_attrs item_mapper; relationships := [] |}.

Definition inspect_one_way (c : class) : option Mapper :=
  if String.eqb c Order then Some order_mapper
  else if String.eqb c LineItem then Some one_way_mapper
  else if String.eqb c TrackedLineItem then Some one_way_mapper
  else None.

(** A line item whose attribute [ver] is stored in the column [version]. *)
Definition renamed_mapper : Mapper :=
  {| column_attrs := [("id", ["id"]); ("qty", ["qty"]); ("ver", ["version"])];
     relationships := [("order", Order)] |}.

Definition inspect_renamed (c : class) : option Mapper :=
  if String.eqb c Order then Some order_mapper
  else if String.eqb c LineItem then Some renamed_mapper
  else if String.eqb c TrackedLineItem then Some renamed_mapper
  else None.

Definition line_item (id qty : Z) (s : option sid) : instance :=
  {| __class__ := TrackedLineItem;
     attrs := [("id", SInt id); ("qty", SInt qty); ("ver", SInt 1);
               ("order_id", SInt 100); ("order", SRef 100)];
     session := s |}.

Definition instances (o : oid) : instance :=
  match o with
  | 7 => line_item 7 1 (Some 1)
  | 8 => line_item 8 5 (Some 1)
  | _ => line_item 9 2 None
  end.

(** The actor. *)
Definition alice : scalar := SRef 1000.

(** Nothing written yet. *)
Definition w0 : world := History.fresh instances.

(** After [item7.qty = 3], with [qty] tracked. *)
Definition w_qty : world := snd (__setattr__ ["qty"] 7 "qty" (SInt 3) w0).

End Sample.

(* ================================================================== *)
(** ** Variations of the small application *)

Module Variations.
Import Tracking.

(** [Order] is not a mapped class. *)
Definition inspect_unmapped_parent (c : class) : option Mapper :=
  if String.eqb c Sample.Order then None else Sample.inspect c.

(** [Order] declares no relationship to [LineItem]; [LineItem.order] is
    there. *)
Definition inspect_no_forward (c : class) : option Mapper :=
  if String.eqb c Sample.Order
  then Some {| column_attrs := column_attrs Sample.order_mapper; relationships := [] |}
  else Sample.inspect c.

(** [Order] has two relationships to [LineItem]. *)
Definition two_relations : list (string * class) :=
  [("customer", "Customer"); ("items", Sample.LineItem); ("archived_items", Sample.LineItem)].

(** The attribute [id] of the wrapped class stands for two columns (as
    with joined-table inheritance). *)
Definition inspect_two_columns (c : class) : option Mapper :=
  if String.eqb c Sample.TrackedLineItem
  then Some {| column_attrs := [("id", ["id"; "base_id"]); ("qty", ["qty"])];
               relationships := relationships Sample.item_mapper |}
  else Sample.inspect c.

End Variations.

(* ================================================================== *)
(** ** The change ledger *)

Module Ledger.

(** The actor: its identifier and what its own [to_dict()] gives. *)
Record User : Type := {
  User_id : scalar;
  User_to_dict : pyval
}.

(** A [Change] as [to_dict] and [last_change] read it.  [change_type] is
    read by [to_dict] and not declared by the class; it is what the
    attribute lookup gives through the bases [GFKBase] and [db.Model], whose
    declarations are elsewhere: [None] is a lookup that fails. *)
Record Change : Type := {
  id : scalar;
  object_id : scalar;
  object_type : scalar;
  change_type : option pyval;
  object_version : option Z;
  user_id : scalar;
  user : option User;
  change : pyval;
  created_at : scalar
}.

(** The value of an [Integer] column: a number or [None]. *)
Definition int_or_none (v : option Z) : scalar :=
  match v with Some z => SInt z | None => SNone end.

(** [Change.to_dict(self, full=True)] *)
Definition to_dict (self : Change) (full : bool) : res pyval :=
  res_bind (match change_type self with
            | Some t => Ok t
            | None => Raise AttributeError
            end) (fun change_type =>
  let d :=
    [(SStr "id", Atom (id self));
     (SStr "object_id", Atom (object_id self));
     (SStr "object_type", Atom (object_type self));
     (SStr "change_type", change_type);
     (SStr "object_version", Atom (int_or_none (object_version self)));
     (SStr "change", change self);
     (SStr "created_at", Atom (created_at self))] in
  if full then
    match user self with
    | Some u => Ok (PyDict (d ++ [(SStr "user", User_to_dict u)]))
    | None => Raise AttributeError
    end
  else Ok (PyDict (d ++ [(SStr "user_id", Atom (user_id self))]))).

(** The subject of a query: its [id] and the [__tablename__] of its class. *)
Record Model : Type := {
  Model_id : scalar;
  __tablename__ : string
}.

Section Query.
(** [.order_by(cls.object_version.desc())] is the database's: it returns
    its rows in some order. *)
Variable order_by_desc : list Change -> list Change.

(** The [filter] of [last_change]. *)
Definition same_object (obj : Model) (c : Change) : bool :=
  scalar_eqb (object_id c) (Model_id obj)
  && scalar_eqb (object_type c) (SStr (__tablename__ obj)).

(** [Change.last_change(obj)] over the rows [query] of the table. *)
Definition last_change (query : list Change) (obj : Model) : option Change :=
  hd_error (order_by_desc (filter (same_object obj) query)).
End Query.

(** An ordering of the [object_version] column: integers by value, [NULL]
    above every integer (where PostgreSQL puts it). *)
Definition version_leb (a b : option Z) : bool :=
  match a, b with
  | _, None => true
  | None, Some _ => false
  | Some x, Some y => Z.leb x y
  end.

(** Rows with the higher version first, by insertion. *)
Fixpoint insert_desc (c : Change) (l : list Change) : list Change :=
  match l with
  | [] => [c]
  | c' :: l' =>
      if version_leb (object_version c') (object_version c)
      then c :: c' :: l'
      else c' :: insert_desc c l'
  end.

Definition sort_desc (l : list Change) : list Change := fold_right insert_desc [] l.

(** Row [a] may come before row [b] when the version of [b] is not above
    that of [a]. *)
Definition descending (version_le : option Z -> option Z -> Prop) (a b : Change) : Prop :=
  version_le (object_version b) (object_version a).

Definition descending_leb : Change -> Change -> Prop :=
  descending (fun a b => version_leb a b = true).

(** The actor of the sample rows. *)
Definition alice : User :=
  {| User_id := SInt 1000;
     User_to_dict := PyDict [(SStr "id", Atom (SInt 1000)); (SStr "name", Atom (SStr "alice"))] |}.

(** A row about the order 100. *)
Definition order_row (row_id : Z) (oid_ : Z) (version : option Z) : Change :=
  {| id := SInt row_id;
     object_id := SInt oid_;
     object_type := SStr "orders";
     change_type := Some (Atom (SStr "modified"));
     object_version := version;
     user_id := SInt 1000;
     user := Some alice;
     change := PyDict [(SStr "type", Enum Modified); (SStr "changes", PyDict [])];
     created_at := SInt 1700000000 |}.

(** Three rows about the order 100 and one about the order 101. *)
Definition sample_table : list Change :=
  [order_row 1 100 (Some 1%Z); order_row 2 101 (Some 9%Z);
   order_row 3 100 (Some 3%Z); order_row 4 100 (Some 2%Z)].

(** The attributes the body of [Change] declares (lines 19-25). *)
Definition Change_attributes : list string :=
  ["id"; "object_version"; "user_id"; "user"; "change"; "created_at"].

(** Modelled from the spec: the base [GFKBase], which is declared outside
    this file.  The ledger refers to its subject by type name and id, and a
    stored row has the columns id, subject type, subject id, subject
    version, user id, change and creation time: the base supplies [object],
    [object_type] and [object_id], the three names this file uses of it. *)
Definition GFKBase_attributes : list string := ["object"; "object_type"; "object_id"].

(** [self.name] on an entry resolves when the class or its base declares
    the name or the constructor call of [record_changes] passes it. *)
Definition resolves (name : string) : bool :=
  mem name (Change_attributes ++ GFKBase_attributes).

(** An entry as [record_changes] builds it (lines 137-142: [object],
    [object_version], [user] and [change] are passed) and the session
    stores it, which gives it its id, the actor's id and its timestamp. *)
Definition recorded (row_id subject_type subject_id : scalar) (version : option Z)
           (actor : User) (payload : pyval) (created : scalar) : Change :=
  {| id := row_id;
     object_id := subject_id;
     object_type := subject_type;
     change_type := if resolves "change_type" then Some (Atom SNone) else None;
     object_version := version;
     user_id := User_id actor;
     user := Some actor;
     change := payload;
     created_at := created |}.

End Ledger.

(* ================================================================== *)
(** * Properties *)

Unset Implicit Arguments.

(** ** Dictionaries *)

Section DictFacts.
Variable V : Type.
Implicit Types (d : dict V) (k : string) (v : V).

Lemma dict_get_set_same d k v : dict_get k (dict_set k v d) = Some v.
Proof.
  induction d as [|[k' v'] d IH]; simpl.
  - now rewrite String.eqb_refl.
  - destruct (String.eqb k k') eqn:E; simpl; rewrite ?String.eqb_refl, ?E; auto.
Qed.

Lemma dict_get_set_other d k k' v :
  k' <> k -> dict_get k' (dict_set k v d) = dict_get k' d.
Proof.
  intros Hne. apply String.eqb_neq in Hne.
  induction d as [|[k0 v0] d IH]; simpl.
  - now rewrite Hne.
  - destruct (String.eqb k k0) eqn:E; simpl.
    + apply String.eqb_eq in E; subst k0. now rewrite Hne.
    + now rewrite IH.
Qed.

Lemma dict_get_None_keys_neg d k : dict_get k d <> None <-> In k (dict_keys d).
Proof.
  induction d as [|[k' v'] d IH]; simpl.
  - tauto.
  - destruct (String.eqb k k') eqn:E.
    + apply String.eqb_eq in E. subst. split; [auto | discriminate].
    + apply String.eqb_neq in E. rewrite IH. intuition congruence.
Qed.

(** Assigning to a key binds that key and no new one besides. *)
Lemma dict_set_keys d k v k' :
  In k' (dict_keys (dict_set k v d)) -> k' = k \/ In k' (dict_keys d).
Proof.
  induction d as [|[k0 v0] d IH]; simpl.
  - intuition.
  - destruct (String.eqb k k0) eqn:E; simpl; intuition.
Qed.

Lemma dict_set_In d k v k' v' :
  In (k', v') (dict_set k v d) -> (k' = k /\ v' = v) \/ In (k', v') d.
Proof.
  induction d as [|[k0 v0] d IH]; simpl.
  - intros [[= <- <-]|[]]. auto.
  - destruct (String.eqb k k0) eqn:E; simpl.
    + intros [[= <- <-]|H]; auto.
    + intros [H|H]; auto. destruct (IH H); auto.
Qed.
End DictFacts.

(** The last element of a list that starts with [v] does not depend on
    the default. *)
Lemma last_cons {A : Type} (l : list A) : forall v d, last (v :: l) d = last l v.
Proof.
  induction l as [|a l IH]; intros v d; [reflexivity|].
  change (last (v :: a :: l) d) with (last (a :: l) d).
  now rewrite !IH.
Qed.

Lemma mem_In key names : mem key names = true <-> In key names.
Proof.
  unfold mem. rewrite existsb_exists. split.
  - intros [x [Hx E]]. apply String.eqb_eq in E. now subst.
  - intros H. exists key. split; [assumption | apply String.eqb_refl].
Qed.

(** ** The mutation tracker *)

Module TrackingProps.
Import Tracking History.

(** An attribute name is tracked exactly when the caller listed it and it
    is none of the four identifier fields. *)
Lemma tracked_spec attributes key :
  mem key (tracked attributes) = true <->
  In key attributes /\ ~ In key excluded.
Proof.
  rewrite mem_In. unfold tracked. rewrite filter_In.
  rewrite negb_true_iff, <- not_true_iff_false, mem_In. tauto.
Qed.

(** *** The assignment hook *)

(** One assignment to a tracked attribute that the instance has: it
    returns, the buffered entry keeps the [previous] it had (or takes the
    value the attribute held) and gets the new [current], and the attribute
    holds the new value. *)
Lemma setattr_tracked attributes self key value w cur :
  mem key (tracked attributes) = true ->
  dict_get key (attrs (heap w self)) = Some cur ->
  exists w',
    __setattr__ attributes self key value w = (Ok tt, w') /\
    dict_get key (__changes__ w') =
      Some {| previous := match dict_get key (__changes__ w) with
                          | Some c => previous c
                          | None => cur
                          end;
              current := value |} /\
    dict_get key (attrs (heap w' self)) = Some value /\
    added w' = added w.
Proof.
  intros Ht Hcur. eexists. split.
  - unfold __setattr__, bind, getattr, gets, modify. rewrite Ht, Hcur. reflexivity.
  - cbn [__changes__ heap added set_attr set_changes attrs].
    rewrite Nat.eqb_refl. cbn [attrs]. rewrite !dict_get_set_same.
    unfold dict_get_default.
    destruct (dict_get key (__changes__ w)); auto.
Qed.

(** The write itself never depends on the tracking: whenever the hook
    returns, for a tracked name or not, the attribute holds the value. *)
Lemma setattr_applies attributes self key value w w' :
  __setattr__ attributes self key value w = (Ok tt, w') ->
  dict_get key (attrs (heap w' self)) = Some value.
Proof.
  unfold __setattr__, bind, getattr, gets, modify, ret.
  destruct (mem key (tracked attributes)).
  - destruct (dict_get key (attrs (heap w self))); [|discriminate].
    intros [= <-]. cbn. rewrite Nat.eqb_refl. cbn. apply dict_get_set_same.
  - intros [= <-]. cbn. rewrite Nat.eqb_refl. cbn. apply dict_get_set_same.
Qed.

(** A name that is not tracked is assigned without a look at the buffer. *)
Lemma setattr_untracked attributes self key value w :
  mem key (tracked attributes) = false ->
  __setattr__ attributes self key value w = (Ok tt, set_attr self key value w).
Proof.
  intros H. unfold __setattr__, bind, ret, modify. now rewrite H.
Qed.

(** Further assignments to an attribute that is buffered already. *)
Lemma assign_seq_buffered attributes self key values : forall w c cur,
  mem key (tracked attributes) = true ->
  dict_get key (__changes__ w) = Some c ->
  dict_get key (attrs (heap w self)) = Some cur ->
  exists w',
    assign_seq attributes self key values w = (Ok tt, w') /\
    dict_get key (__changes__ w') =
      Some {| previous := previous c; current := last values (current c) |} /\
    dict_get key (attrs (heap w' self)) = Some (last values cur).
Proof.
  induction values as [|v rest IH]; intros w c cur Ht Hc Hcur.
  - exists w. cbn. destruct c; auto.
  - destruct (setattr_tracked attributes self key v w cur Ht Hcur) as (w1 & E1 & Hb1 & Ha1 & _).
    rewrite Hc in Hb1.
    destruct (IH w1 _ v Ht Hb1 Ha1) as (w' & E & Hb & Ha).
    exists w'. split; [|split].
    + cbn [assign_seq]. unfold bind at 1. now rewrite E1.
    + rewrite Hb. cbn [previous current]. now rewrite last_cons.
    + rewrite Ha. now rewrite last_cons.
Qed.

(** Writes [v1, ..., vn] (n >= 1) to one tracked attribute of an
    instance, starting where nothing is buffered for that attribute: all
    the writes return, the buffered entry has as [previous] the value the
    attribute held before the first write and as [current] the value of the
    last write, whatever the values in between, and the attribute itself
    holds the last value written. *)
Theorem writes_collapse attributes self key v1 rest w before :
  mem key (tracked attributes) = true ->
  dict_get key (__changes__ w) = None ->
  dict_get key (attrs (heap w self)) = Some before ->
  exists w',
    assign_seq attributes self key (v1 :: rest) w = (Ok tt, w') /\
    dict_get key (__changes__ w') =
      Some {| previous := before; current := last (v1 :: rest) v1 |} /\
    dict_get key (attrs (heap w' self)) = Some (last (v1 :: rest) v1).
Proof.
  intros Ht Hnone Hcur.
  destruct (setattr_tracked attributes self key v1 w before Ht Hcur) as (w1 & E1 & Hb1 & Ha1 & _).
  rewrite Hnone in Hb1.
  destruct (assign_seq_buffered attributes self key rest w1 _ v1 Ht Hb1 Ha1) as (w' & E & Hb & Ha).
  exists w'. split; [|split].
  - cbn [assign_seq]. unfold bind at 1. now rewrite E1.
  - rewrite Hb. cbn [previous current]. now rewrite last_cons.
  - rewrite Ha. now rewrite last_cons.
Qed.

(** Item 7 holds [qty = 1]; [qty] is written 3, then 4, then 2. *)
Lemma writes_collapse_witness :
  exists w',
    assign_seq ["qty"] 7 "qty" [SInt 3; SInt 4; SInt 2] Sample.w0 = (Ok tt, w') /\
    dict_get "qty" (__changes__ w') = Some {| previous := SInt 1; current := SInt 2 |} /\
    dict_get "qty" (attrs (heap w' 7)) = Some (SInt 2).
Proof.
  apply (writes_collapse ["qty"] 7 "qty" (SInt 3) [SInt 4; SInt 2] Sample.w0 (SInt 1));
    reflexivity.
Defined.

(** *** Extraction of the changes *)

(** The loop skips the entries whose two values are equal: it computes what
    it computes on the buffer without them. *)
Lemma collect_changes_filter columns items : forall result,
  collect_changes columns items result =
  collect_changes columns (filter changed items) result.
Proof.
  induction items as [|[key c] items IH]; intros result; [reflexivity|].
  cbn [collect_changes filter]. unfold changed at 1. cbn [snd].
  destruct (py_ne (current c) (previous c)) eqn:E.
  - cbn [collect_changes]. rewrite E. apply IH.
  - apply IH.
Qed.

(** Where an entry of the result comes from. *)
Lemma collect_changes_In columns items : forall result col c,
  In (col, c) (collect_changes columns items result) ->
  In (col, c) result \/
  (py_eq (current c) (previous c) = false /\
   exists key, In (key, c) items /\ col = dict_get_default key key columns).
Proof.
  induction items as [|[key c0] items IH]; intros result col c H; [now left|].
  cbn [collect_changes] in H.
  destruct (py_ne (current c0) (previous c0)) eqn:E.
  - destruct (IH _ _ _ H) as [Hin | (Hne & k & Hk & Hcol)].
    + destruct (dict_set_In _ _ _ _ _ _ Hin) as [[-> ->] | Hin']; [|now left].
      right. split.
      * unfold py_ne in E. now apply negb_true_iff in E.
      * exists key. split; [now left | reflexivity].
    + right. split; [assumption|]. exists k. split; [now right | assumption].
  - destruct (IH _ _ _ H) as [Hin | (Hne & k & Hk & Hcol)]; [now left|].
    right. split; [assumption|]. exists k. split; [now right | assumption].
Qed.

(** A key of the accumulated result stays one. *)
Lemma collect_changes_keys_mono columns items : forall result col,
  In col (dict_keys result) -> In col (dict_keys (collect_changes columns items result)).
Proof.
  induction items as [|[key c0] items IH]; intros result col H; [assumption|].
  cbn [collect_changes].
  destruct (py_ne (current c0) (previous c0)); apply IH; [|assumption].
  apply dict_get_None_keys_neg. 
  destruct (String.eqb col (dict_get_default key key columns)) eqn:E.
  - apply String.eqb_eq in E. subst col. rewrite dict_get_set_same. discriminate.
  - apply String.eqb_neq in E. rewrite dict_get_set_other by assumption.
    now apply dict_get_None_keys_neg.
Qed.

(** Every entry whose values differ is reported under its column name. *)
Lemma collect_changes_complete columns items : forall result key c,
  In (key, c) items ->
  py_eq (current c) (previous c) = false ->
  In (dict_get_default key key columns)
     (dict_keys (collect_changes columns items result)).
Proof.
  induction items as [|[k0 c0] items IH]; intros result key c Hin Hne;
    [destruct Hin | destruct Hin as [H|H]].
  - injection H as -> ->. cbn [collect_changes]. unfold py_ne. rewrite Hne. cbn [negb].
    apply collect_changes_keys_mono. apply dict_get_None_keys_neg.
    rewrite dict_get_set_same. discriminate.
  - cbn [collect_changes]. destruct (py_ne (current c0) (previous c0)); eapply IH; eauto.
Qed.

(** What [get_object_changes] does when reflection on the class of the
    object succeeds. *)
Lemma get_object_changes_eq inspect obj reset w m columns :
  inspect (__class__ (heap w obj)) = Some m ->
  build_columns (column_attrs m) [] = Ok columns ->
  exists w1,
    get_object_changes inspect obj reset w =
      (Ok (collect_changes columns (__changes__ w) []), w1) /\
    __changes__ w1 = (if reset then [] else __changes__ w) /\
    heap w1 = heap w /\ added w1 = added w.
Proof.
  intros Hm Hc. unfold get_object_changes, bind, gets, lift, inspect_, modify, ret.
  destruct (__changes__ w) as [|kc b] eqn:Hb; cbn [dict_bool].
  - exists w. rewrite Hb. destruct reset; auto.
  - rewrite Hm, Hc. destruct reset; eexists; (split; [reflexivity|]); cbn; auto.
Qed.

(** With an empty buffer the extraction returns the empty mapping at once. *)
Lemma get_object_changes_empty inspect obj reset w :
  __changes__ w = [] ->
  get_object_changes inspect obj reset w = (Ok [], w).
Proof.
  intros H. unfold get_object_changes, bind, gets, ret. now rewrite H.
Qed.

(** C6.  Where reflection on the class of the object succeeds,
    [get_object_changes] returns a mapping in which every entry is a
    buffered one whose [current] differs from its [previous] (under the
    column name of its attribute), in which every such buffered entry is
    reported, and which is empty when [current == previous] holds for all
    buffered attributes.  With [reset] (the default) the buffer is empty
    afterwards, and the next call, with no write in between, returns the
    empty mapping. *)
Theorem get_object_changes_drops_and_resets inspect obj reset w m columns :
  inspect (__class__ (heap w obj)) = Some m ->
  build_columns (column_attrs m) [] = Ok columns ->
  exists result w1,
    get_object_changes inspect obj reset w = (Ok result, w1) /\
    (forall col c, In (col, c) result ->
       py_eq (current c) (previous c) = false /\
       exists key, In (key, c) (__changes__ w) /\
                   col = dict_get_default key key columns) /\
    (forall key c, In (key, c) (__changes__ w) ->
       py_eq (current c) (previous c) = false ->
       In (dict_get_default key key columns) (dict_keys result)) /\
    ((forall key c, In (key, c) (__changes__ w) ->
        py_eq (current c) (previous c) = true) -> result = []) /\
    (reset = true ->
       __changes__ w1 = [] /\
       forall reset', get_object_changes inspect obj reset' w1 = (Ok [], w1)).
Proof.
  intros Hm Hc.
  destruct (get_object_changes_eq inspect obj reset w m columns Hm Hc)
    as (w1 & E & Hb & _ & _).
  exists (collect_changes columns (__changes__ w) []), w1.
  split; [exact E|]. split; [|split; [|split]].
  - intros col c Hin.
    destruct (collect_changes_In _ _ _ _ _ Hin) as [Hnil | H]; [destruct Hnil | exact H].
  - intros key c Hin Hne. eapply collect_changes_complete; eauto.
  - intros Hall. rewrite collect_changes_filter.
    replace (filter changed (__changes__ w)) with (@nil (string * change_rec)); [reflexivity|].
    symmetry. revert Hall. generalize (__changes__ w) as b.
    induction b as [|[k c] b IH]; intros Hall; [reflexivity|].
    cbn [filter]. unfold changed at 1, py_ne. cbn [snd].
    rewrite (Hall k c) by now left. cbn [negb].
    apply IH. intros k' c' H'. apply (Hall k' c'). now right.
  - intros ->. split; [exact Hb|]. intros reset'.
    now apply get_object_changes_empty.
Qed.

(** Item 7 after [qty = 3], [order_id = 5] and [order_id = 100] again:
    the extraction returns the change of [qty] alone and empties the
    buffer. *)
Lemma get_object_changes_drops_and_resets_witness :
  let w := run Sample.inspect ["qty"; "order_id"] None Sample.LineItem
             [Assign 7 "qty" (SInt 3); Assign 7 "order_id" (SInt 5);
              Assign 7 "order_id" (SInt 100)] Sample.w0 in
  __changes__ w = [("qty", {| previous := SInt 1; current := SInt 3 |});
                   ("order_id", {| previous := SInt 100; current := SInt 100 |})] /\
  exists w1,
    get_object_changes Sample.inspect 7 true w =
      (Ok [("qty", {| previous := SInt 1; current := SInt 3 |})], w1) /\
    __changes__ w1 = [] /\
    get_object_changes Sample.inspect 7 true w1 = (Ok [], w1).
Proof.
  intros w. split; [reflexivity|].
  destruct (get_object_changes_drops_and_resets Sample.inspect 7 true w
              Sample.item_mapper
              [("id", "id"); ("qty", "qty"); ("order_id", "order_id")]
              eq_refl eq_refl)
    as (result & w1 & E & _ & _ & _ & Hreset).
  destruct (Hreset eq_refl) as [Hb Hnext].
  exists w1. split; [|split; [exact Hb | apply Hnext]].
  rewrite E. f_equal. f_equal.
  assert (E' : fst (get_object_changes Sample.inspect 7 true w) = Ok result)
    by now rewrite E.
  vm_compute in E'. now injection E' as <-.
Defined.

(** *** Recording on an attached instance *)

(** The extraction touches the buffer only. *)
Lemma get_object_changes_frame inspect obj reset w r w1 :
  get_object_changes inspect obj reset w = (r, w1) ->
  heap w1 = heap w /\ added w1 = added w.
Proof.
  unfold get_object_changes, bind, gets, lift, modify, ret.
  destruct (dict_bool (__changes__ w)).
  - destruct (inspect_ inspect (__class__ (heap w obj))); [|intros [= _ <-]; auto].
    destruct (build_columns (column_attrs a) []); [|intros [= _ <-]; auto].
    destruct reset; intros [= _ <-]; auto.
  - intros [= _ <-]; auto.
Qed.

(** An empty modification is skipped after the extraction. *)
Lemma record_changes_skip inspect parent cls self changed_by w s w1 :
  session (heap w self) = Some s ->
  get_object_changes inspect self true w = (Ok [], w1) ->
  record_changes inspect parent cls self changed_by Modified w = (Ok tt, w1).
Proof.
  intros Hs He. unfold record_changes, bind at 1, object_session, gets.
  rewrite Hs. unfold bind at 1. rewrite He. reflexivity.
Qed.

(** Without a parent the entry is about the instance itself. *)
Lemma record_changes_plain inspect cls self changed_by change_type w s changes w1 :
  session (heap w self) = Some s ->
  get_object_changes inspect self true w = (Ok changes, w1) ->
  negb (dict_bool changes) && Type_eqb change_type Modified = false ->
  record_changes inspect None cls self changed_by change_type w =
    (Ok tt,
     staged s {| object := SRef self;
                 object_version := dict_get_default "version" SNone (attrs (heap w self));
                 user := changed_by;
                 change := PyDict (payload change_type changes) |} w1).
Proof.
  intros Hs He Hgo.
  destruct (get_object_changes_frame _ _ _ _ _ _ He) as [Hh _].
  unfold record_changes, bind at 1, object_session, gets.
  rewrite Hs. unfold bind at 1. rewrite He, Hgo.
  unfold bind, ret, getattr_default, session_add, modify, staged, payload.
  cbn [fst snd]. rewrite ?Hh. reflexivity.
Qed.

(** With a parent and both relationships found, the entry is about what
    the relationship to the parent holds. *)
Lemma record_changes_redirected inspect parent cls self changed_by change_type
      w s changes w1 mp mc parent_attr back_attr id :
  session (heap w self) = Some s ->
  get_object_changes inspect self true w = (Ok changes, w1) ->
  negb (dict_bool changes) && Type_eqb change_type Modified = false ->
  inspect parent = Some mp ->
  inspect cls = Some mc ->
  first_relation (relationships mp) cls = parent_attr ->
  first_relation (relationships mc) parent = Some back_attr ->
  dict_get "id" (attrs (heap w self)) = Some id ->
  record_changes inspect (Some parent) cls self changed_by change_type w =
    (Ok tt,
     staged s {| object := dict_get_default back_attr (SRef self) (attrs (heap w self));
                 object_version := dict_get_default "version" SNone (attrs (heap w self));
                 user := changed_by;
                 change := PyDict (parent_payload parent_attr change_type changes id) |} w1).
Proof.
  intros Hs He Hgo Hp Hc Hpa Hba Hid.
  destruct (get_object_changes_frame _ _ _ _ _ _ He) as [Hh _].
  unfold record_changes, bind at 1, object_session, gets.
  rewrite Hs. unfold bind at 1. rewrite He, Hgo.
  unfold bind, ret, lift, get_relation_attr, inspect_, res_bind, getattr,
    getattr_default, session_add, modify, staged, parent_payload.
  rewrite Hp, Hc, Hpa, Hba, Hh, Hid. cbn [fst snd app]. rewrite ?Hh. reflexivity.
Qed.

(** With a parent and no relationship from the class back to it, the name
    given to [getattr] is [None]: the call raises, after the extraction has
    emptied the buffer and before anything is added. *)
Lemma record_changes_no_way_back inspect parent cls self changed_by change_type
      w s changes w1 mp mc id :
  session (heap w self) = Some s ->
  get_object_changes inspect self true w = (Ok changes, w1) ->
  negb (dict_bool changes) && Type_eqb change_type Modified = false ->
  inspect parent = Some mp ->
  inspect cls = Some mc ->
  first_relation (relationships mc) parent = None ->
  dict_get "id" (attrs (heap w self)) = Some id ->
  record_changes inspect (Some parent) cls self changed_by change_type w =
    (Raise TypeError, w1).
Proof.
  intros Hs He Hgo Hp Hc Hba Hid.
  destruct (get_object_changes_frame _ _ _ _ _ _ He) as [Hh _].
  unfold record_changes, bind at 1, object_session, gets.
  rewrite Hs. unfold bind at 1. rewrite He, Hgo.
  unfold bind, ret, lift, get_relation_attr, inspect_, res_bind, getattr,
    getattr_default, raise.
  rewrite Hp, Hc, Hba, Hh, Hid. reflexivity.
Qed.

Lemma nonempty_goes_on (changes : dict change_rec) change_type :
  changes <> [] ->
  negb (dict_bool changes) && Type_eqb change_type Modified = false.
Proof. destruct changes; [congruence | reflexivity]. Qed.

(** C1.  A child class tracked with a parent, where the parent class has a
    relationship [parent_attr] to the child class and the child class a
    relationship [back_attr] to the parent class.  On an instance held by a
    session, with a non-empty extracted change set, [record_changes]
    returns and adds exactly one entry to that session: its subject is the
    value [parent_obj] that the instance holds under [back_attr], and its
    payload is [{type: Modified, changes: {parent_attr: [{type: change_type,
    changes: <change set>, id: {previous: id, current: id}}]}}] with [id]
    the id of the child. *)
Theorem record_changes_to_parent inspect parent cls self changed_by change_type
        w s changes w1 mp mc parent_attr back_attr id parent_obj :
  inspect parent = Some mp ->
  first_relation (relationships mp) cls = Some parent_attr ->
  inspect cls = Some mc ->
  first_relation (relationships mc) parent = Some back_attr ->
  session (heap w self) = Some s ->
  get_object_changes inspect self true w = (Ok changes, w1) ->
  changes <> [] ->
  dict_get "id" (attrs (heap w self)) = Some id ->
  dict_get back_attr (attrs (heap w self)) = Some parent_obj ->
  exists entry w2,
    record_changes inspect (Some parent) cls self changed_by change_type w = (Ok tt, w2) /\
    added w2 = added w ++ [(s, entry)] /\
    object entry = parent_obj /\
    object_version entry = dict_get_default "version" SNone (attrs (heap w self)) /\
    user entry = changed_by /\
    change entry =
      PyDict
        [(SStr "type", Enum Modified);
         (SStr "changes",
           PyDict
             [(SStr parent_attr,
               PyList
                 [PyDict
                    [(SStr "type", Enum change_type);
                     (SStr "changes", changes_to_py changes);
                     (SStr "id", PyDict [(SStr "previous", Atom id);
                                         (SStr "current", Atom id)])]])])].
Proof.
  intros Hp Hpa Hc Hba Hs He Hne Hid Hpo.
  destruct (get_object_changes_frame _ _ _ _ _ _ He) as [_ Ha].
  eexists. eexists. split.
  - eapply record_changes_redirected; eauto using nonempty_goes_on.
  - cbn [staged added object user change]. rewrite Ha.
    unfold dict_get_default. rewrite Hpo. repeat split; reflexivity.
Qed.

(** The order and its line item of the specification: item 7, no version
    attribute set apart, [qty] written from 1 to 3. *)
Lemma record_changes_to_parent_witness :
  exists entry w2,
    record_changes Sample.inspect (Some Sample.Order) Sample.LineItem
      7 Sample.alice Modified Sample.w_qty = (Ok tt, w2) /\
    added w2 = added Sample.w_qty ++ [(1, entry)] /\
    object entry = SRef 100 /\
    object_version entry =
      dict_get_default "version" SNone (attrs (heap Sample.w_qty 7)) /\
    user entry = Sample.alice /\
    change entry =
      PyDict
        [(SStr "type", Enum Modified);
         (SStr "changes",
           PyDict
             [(SStr "items",
               PyList
                 [PyDict
                    [(SStr "type", Enum Modified);
                     (SStr "changes",
                       changes_to_py
                         [("qty", {| previous := SInt 1; current := SInt 3 |})]);
                     (SStr "id", PyDict [(SStr "previous", Atom (SInt 7));
                                         (SStr "current", Atom (SInt 7))])]])])].
Proof.
  apply (record_changes_to_parent Sample.inspect Sample.Order Sample.LineItem
           7 Sample.alice Modified Sample.w_qty 1
           [("qty", {| previous := SInt 1; current := SInt 3 |})]
           (set_changes [] Sample.w_qty)
           Sample.order_mapper Sample.item_mapper "items" "order" (SInt 7) (SRef 100));
    try reflexivity.
  discriminate.
Defined.

(** C3.  The sample application without a relationship from [LineItem]
    back to [Order]: [record_changes] on the attached item 7, with the
    change of [qty] buffered, raises [TypeError]; the buffer has been
    emptied and no entry was added. *)
Theorem record_changes_no_back_relation_raises :
  fst (record_changes Sample.inspect_one_way (Some Sample.Order) Sample.LineItem
         7 Sample.alice Modified Sample.w_qty) = Raise TypeError /\
  __changes__ Sample.w_qty = [("qty", {| previous := SInt 1; current := SInt 3 |})] /\
  __changes__ (snd (record_changes Sample.inspect_one_way (Some Sample.Order)
                      Sample.LineItem 7 Sample.alice Modified Sample.w_qty)) = [] /\
  added (snd (record_changes Sample.inspect_one_way (Some Sample.Order)
                Sample.LineItem 7 Sample.alice Modified Sample.w_qty)) = [].
Proof. repeat split. Qed.

(** *** Empty change sets *)

(** C4, as stated, fails under a parent: [record_changes] with [Created]
    on the attached item 7 of the sample application, nothing buffered,
    adds one entry, and the [changes] field of its payload is the mapping
    with the relationship [items], not the empty mapping. *)
Lemma created_under_parent_changes_not_empty :
  exists entry w',
    get_object_changes Sample.inspect 7 true Sample.w0 = (Ok [], Sample.w0) /\
    record_changes Sample.inspect (Some Sample.Order) Sample.LineItem
      7 Sample.alice Created Sample.w0 = (Ok tt, w') /\
    added w' = [(1, entry)] /\
    py_field "changes" (change entry) =
      Some (PyDict
              [(SStr "items",
                PyList
                  [PyDict
                     [(SStr "type", Enum Created);
                      (SStr "changes", PyDict []);
                      (SStr "id", PyDict [(SStr "previous", Atom (SInt 7));
                                          (SStr "current", Atom (SInt 7))])]])]) /\
    py_field "changes" (change entry) <> Some (PyDict []).
Proof.
  exists {| object := SRef 100; object_version := SNone; user := Sample.alice;
            change := PyDict (parent_payload (Some "items") Created [] (SInt 7)) |}.
  exists (snd (record_changes Sample.inspect (Some Sample.Order) Sample.LineItem
                 7 Sample.alice Created Sample.w0)).
  split; [reflexivity|]. split; [reflexivity|]. split; [reflexivity|].
  split; [reflexivity|]. intros H. vm_compute in H. discriminate H.
Qed.

Lemma empty_goes_on change_type :
  change_type <> Modified ->
  negb (dict_bool (@nil (string * change_rec))) && Type_eqb change_type Modified = false.
Proof. destruct change_type; [reflexivity | congruence | reflexivity]. Qed.

(** C4, amended.  On an instance held by a session whose extracted change
    set is empty: with [Modified], [record_changes] returns and adds
    nothing; with [Created] or [Deleted] it returns and adds one entry.
    Without a parent the payload of that entry is [{type: change_type,
    changes: {}}]; with a parent and a relationship from the class back to
    it, the payload is the redirected one and the empty mapping is the
    [changes] field of its nested record. *)
Theorem record_changes_empty_diff inspect parent cls self changed_by change_type w s w1 :
  session (heap w self) = Some s ->
  get_object_changes inspect self true w = (Ok [], w1) ->
  (change_type = Modified ->
     record_changes inspect parent cls self changed_by change_type w = (Ok tt, w1) /\
     added w1 = added w) /\
  (change_type <> Modified -> parent = None ->
     exists entry w2,
       record_changes inspect parent cls self changed_by change_type w = (Ok tt, w2) /\
       added w2 = added w ++ [(s, entry)] /\
       object entry = SRef self /\
       change entry =
         PyDict [(SStr "type", Enum change_type); (SStr "changes", PyDict [])]) /\
  (change_type <> Modified ->
     forall p mp mc back_attr id,
       parent = Some p ->
       inspect p = Some mp ->
       inspect cls = Some mc ->
       first_relation (relationships mc) p = Some back_attr ->
       dict_get "id" (attrs (heap w self)) = Some id ->
       exists entry w2,
         record_changes inspect parent cls self changed_by change_type w = (Ok tt, w2) /\
         added w2 = added w ++ [(s, entry)] /\
         object entry = dict_get_default back_attr (SRef self) (attrs (heap w self)) /\
         change entry =
           PyDict
             [(SStr "type", Enum Modified);
              (SStr "changes",
                PyDict
                  [(key_of (first_relation (relationships mp) cls),
                    PyList
                      [PyDict
                         [(SStr "type", Enum change_type);
                          (SStr "changes", PyDict []);
                          (SStr "id", PyDict [(SStr "previous", Atom id);
                                              (SStr "current", Atom id)])]])])]).
Proof.
  intros Hs He.
  destruct (get_object_changes_frame _ _ _ _ _ _ He) as [_ Ha].
  split; [|split].
  - intros ->. split; [|exact Ha]. eapply record_changes_skip; eauto.
  - intros Hct ->. eexists. eexists. split.
    + eapply record_changes_plain; eauto using empty_goes_on.
    + cbn [staged added object change]. rewrite Ha. repeat split; reflexivity.
  - intros Hct p mp mc back_attr id -> Hp Hc Hba Hid. eexists. eexists. split.
    + eapply record_changes_redirected; eauto using empty_goes_on.
    + cbn [staged added object change]. rewrite Ha. repeat split; reflexivity.
Qed.

(** The unwrapped [Created] entry for item 7 when [LineItem] is tracked
    without a parent. *)
Lemma record_changes_empty_diff_witness :
  exists entry w2,
    record_changes Sample.inspect None Sample.LineItem 7 Sample.alice Created Sample.w0
      = (Ok tt, w2) /\
    added w2 = added Sample.w0 ++ [(1, entry)] /\
    object entry = SRef 7 /\
    change entry = PyDict [(SStr "type", Enum Created); (SStr "changes", PyDict [])].
Proof.
  refine (proj1 (proj2 (record_changes_empty_diff Sample.inspect None Sample.LineItem
                          7 Sample.alice Created Sample.w0 1 Sample.w0 _ _)) _ _);
    first [reflexivity | discriminate].
Defined.

(** *** One buffer for all the instances *)

(** C2.  Items 7 and 8 of the sample application, [qty] tracked, no
    parent.  After the single write [item7.qty = 3]: the extraction for
    item 8 returns the change of item 7; [record_changes] on item 8 adds an
    entry about item 8 that carries the change of item 7 and empties the
    buffer, after which [record_changes] on item 7 adds nothing; and a
    write [item8.qty = 9] (item 8 held 5) turns the buffered entry into
    [{previous: 1, current: 9}]. *)
Theorem buffer_is_shared_between_instances :
  let after_8 :=
    snd (record_changes Sample.inspect None Sample.LineItem 8 Sample.alice Modified
           Sample.w_qty) in
  fst (get_object_changes Sample.inspect 8 false Sample.w_qty) =
    Ok [("qty", {| previous := SInt 1; current := SInt 3 |})] /\
  added after_8 =
    [(1, {| object := SRef 8; object_version := SNone; user := Sample.alice;
            change := PyDict
              [(SStr "type", Enum Modified);
               (SStr "changes",
                 changes_to_py [("qty", {| previous := SInt 1; current := SInt 3 |})])] |})] /\
  __changes__ after_8 = [] /\
  added (snd (record_changes Sample.inspect None Sample.LineItem 7 Sample.alice Modified
                after_8)) = added after_8 /\
  dict_get "qty" (attrs (heap Sample.w_qty 8)) = Some (SInt 5) /\
  __changes__ (snd (__setattr__ ["qty"] 8 "qty" (SInt 9) Sample.w_qty)) =
    [("qty", {| previous := SInt 1; current := SInt 9 |})].
Proof. repeat split. Qed.

(** *** The identifier fields *)

Lemma setattr_keys_tracked attributes self key value w :
  keys_tracked attributes w ->
  keys_tracked attributes (snd (__setattr__ attributes self key value w)).
Proof.
  intros Hinv. unfold __setattr__, bind, getattr, gets, modify, ret.
  destruct (mem key (tracked attributes)) eqn:Ht.
  - destruct (dict_get key (attrs (heap w self))); cbn; [|exact Hinv].
    intros key' Hin. destruct (dict_set_keys _ _ _ _ _ Hin) as [-> | Hin']; auto.
  - cbn. exact Hinv.
Qed.

(** The extraction leaves the buffer as it is or empties it. *)
Lemma get_object_changes_buffer inspect obj reset w r w1 :
  get_object_changes inspect obj reset w = (r, w1) ->
  __changes__ w1 = __changes__ w \/ __changes__ w1 = [].
Proof.
  unfold get_object_changes, bind, gets, lift, modify, ret.
  destruct (dict_bool (__changes__ w)); [|intros [= _ <-]; now left].
  destruct (inspect_ inspect (__class__ (heap w obj))); [|intros [= _ <-]; now left].
  destruct (build_columns (column_attrs a) []); [|intros [= _ <-]; now left].
  destruct reset; intros [= _ <-]; cbn; auto.
Qed.

(** [record_changes] changes the buffer through the extraction only. *)
Lemma record_changes_buffer inspect parent cls self changed_by change_type w r w2 :
  record_changes inspect parent cls self changed_by change_type w = (r, w2) ->
  __changes__ w2 = __changes__ w \/ __changes__ w2 = [].
Proof.
  unfold record_changes, bind at 1, object_session, gets.
  destruct (session (heap w self)) as [s|]; [|intros [= _ <-]; now left].
  unfold bind at 1.
  destruct (get_object_changes inspect self true w) as [[changes|e] w1] eqn:He;
    apply get_object_changes_buffer in He; [|intros [= _ <-]; exact He].
  destruct (negb (dict_bool changes) && Type_eqb change_type Modified);
    [intros [= _ <-]; exact He|].
  unfold bind, ret, lift, getattr, getattr_default, session_add, modify, raise.
  destruct parent as [p|].
  - destruct (get_relation_attr inspect p cls); [|intros [= _ <-]; exact He].
    destruct (dict_get "id" (attrs (heap w1 self))); [|intros [= _ <-]; exact He].
    destruct (get_relation_attr inspect cls p) as [[k|]|]; intros [= _ <-]; exact He.
  - intros [= _ <-]; exact He.
Qed.

(** A record call on an instance held by a session leaves the buffer as
    the extraction left it: empty, where reflection succeeds, whether the
    call then returns or raises.  The instances are as they were. *)
Lemma record_changes_flushes inspect parent cls self changed_by change_type
      w s m columns r w2 :
  session (heap w self) = Some s ->
  inspect (__class__ (heap w self)) = Some m ->
  build_columns (column_attrs m) [] = Ok columns ->
  record_changes inspect parent cls self changed_by change_type w = (r, w2) ->
  __changes__ w2 = [] /\ heap w2 = heap w.
Proof.
  intros Hs Hm Hc.
  destruct (get_object_changes_eq inspect self true w m columns Hm Hc)
    as (w1 & He & Hb & Hh & _).
  unfold record_changes, bind at 1, object_session, gets.
  rewrite Hs. unfold bind at 1. rewrite He.
  destruct (negb (dict_bool (collect_changes columns (__changes__ w) []))
            && Type_eqb change_type Modified);
    [intros [= _ <-]; auto|].
  unfold bind, ret, lift, getattr, getattr_default, session_add, modify, raise.
  destruct parent as [p|].
  - destruct (get_relation_attr inspect p cls); [|intros [= _ <-]; auto].
    destruct (dict_get "id" (attrs (heap w1 self))); [|intros [= _ <-]; auto].
    destruct (get_relation_attr inspect cls p) as [[k|]|]; intros [= _ <-]; auto.
  - intros [= _ <-]; auto.
Qed.

Lemma exec_keys_tracked inspect attributes parent cls o w :
  keys_tracked attributes w ->
  keys_tracked attributes (exec inspect attributes parent cls o w).
Proof.
  intros Hinv. destruct o as [self key value | obj reset | self changed_by change_type];
    cbn [exec].
  - now apply setattr_keys_tracked.
  - destruct (get_object_changes inspect obj reset w) as [r w1] eqn:E. cbn [snd].
    unfold keys_tracked.
    destruct (get_object_changes_buffer _ _ _ _ _ _ E) as [-> | ->];
      [exact Hinv | intros key []].
  - destruct (record_changes inspect parent cls self changed_by change_type w)
      as [r w1] eqn:E. cbn [snd].
    unfold keys_tracked.
    destruct (record_changes_buffer _ _ _ _ _ _ _ _ _ E) as [-> | ->];
      [exact Hinv | intros key []].
Qed.

Lemma run_keys_tracked inspect attributes parent cls ops : forall w,
  keys_tracked attributes w ->
  keys_tracked attributes (run inspect attributes parent cls ops w).
Proof.
  induction ops as [|o ops IH]; intros w Hinv; [exact Hinv|].
  cbn [run fold_left]. apply IH. now apply exec_keys_tracked.
Qed.

(** C8, as stated, fails where a column is named like an identifier field:
    with [ver] tracked and stored in the column [version], the write
    [item7.ver = 2] gives an extracted change set with the key [version]. *)
Lemma column_named_version_is_a_key :
  fst (get_object_changes Sample.inspect_renamed 7 true
         (run Sample.inspect_renamed ["ver"] None Sample.LineItem
            [Assign 7 "ver" (SInt 2)] Sample.w0))
    = Ok [("version", {| previous := SInt 1; current := SInt 2 |})] /\
  mem "version" excluded = true.
Proof. split; reflexivity. Qed.

(** C8, amended.  After any history of a wrapped class, whatever names the
    caller listed: none of [id], [created_at], [updated_at], [version] is a
    key of the buffer; and every key of an extracted change set is the
    column name that reflection gives for a tracked attribute, itself none
    of the four.  So one of the four names is such a key only as the column
    of a tracked attribute with another name. *)
Theorem identifier_fields_not_tracked inspect attributes parent cls ops h :
  let w := run inspect attributes parent cls ops (fresh h) in
  Forall (fun name => ~ In name (dict_keys (__changes__ w))) excluded /\
  forall obj reset result w' col,
    get_object_changes inspect obj reset w = (Ok result, w') ->
    In col (dict_keys result) ->
    exists m columns key,
      inspect (__class__ (heap w obj)) = Some m /\
      build_columns (column_attrs m) [] = Ok columns /\
      In key attributes /\ ~ In key excluded /\
      col = dict_get_default key key columns /\
      (In col excluded -> key <> col /\ dict_get key columns = Some col).
Proof.
  intros w.
  assert (Hinv : keys_tracked attributes w).
  { apply run_keys_tracked. intros key []. }
  split.
  - apply Forall_forall. intros name Hex Hin.
    apply Hinv, tracked_spec in Hin. tauto.
  - intros obj reset result w' col He Hcol.
    revert He. unfold get_object_changes, bind, gets, lift, modify, ret.
    destruct (dict_bool (__changes__ w));
      [|intros [= <- _]; destruct Hcol].
    unfold inspect_.
    destruct (inspect (__class__ (heap w obj))) as [m|] eqn:Hm; [|discriminate].
    destruct (build_columns (column_attrs m) []) as [columns|] eqn:Hcols; [|discriminate].
    intros He.
    assert (result = collect_changes columns (__changes__ w) []) as ->
      by (destruct reset; injection He; auto).
    apply in_map_iff in Hcol. destruct Hcol as ([col' c] & <- & Hin).
    destruct (collect_changes_In _ _ _ _ _ Hin) as [Hnil | (_ & key & Hk & Hc)];
      [destruct Hnil|].
    assert (Ht : mem key (tracked attributes) = true).
    { apply Hinv. apply in_map_iff. exists (key, c). auto. }
    apply tracked_spec in Ht. destruct Ht as [Hattr Hnex].
    exists m, columns, key. cbn [fst].
    split; [reflexivity|]. split; [assumption|].
    split; [assumption|]. split; [assumption|]. split; [assumption|].
    intros Hex. subst col'. unfold dict_get_default in *.
    destruct (dict_get key columns) as [c0|]; [|contradiction].
    split; [|reflexivity]. intros ->. contradiction.
Qed.

(** The caller lists [version] and [qty]; [item7.version = 2] and
    [item7.qty = 3] are written: only [qty] is buffered and extracted. *)
Lemma identifier_fields_not_tracked_witness :
  let w := run Sample.inspect ["version"; "qty"] None Sample.LineItem
             [Assign 7 "version" (SInt 2); Assign 7 "qty" (SInt 3)] Sample.w0 in
  __changes__ w = [("qty", {| previous := SInt 1; current := SInt 3 |})] /\
  Forall (fun name => ~ In name (dict_keys (__changes__ w))) excluded /\
  exists m columns key,
    Sample.inspect (__class__ (heap w 7)) = Some m /\
    build_columns (column_attrs m) [] = Ok columns /\
    In key ["version"; "qty"] /\ ~ In key excluded /\
    "qty" = dict_get_default key key columns /\
    (In "qty" excluded -> key <> "qty" /\ dict_get key columns = Some "qty").
Proof.
  pose proof (identifier_fields_not_tracked Sample.inspect ["version"; "qty"] None
                Sample.LineItem
                [Assign 7 "version" (SInt 2); Assign 7 "qty" (SInt 3)]
                Sample.instances) as [Hbuf Hext].
  split; [reflexivity|]. split; [exact Hbuf|].
  apply (Hext 7 true [("qty", {| previous := SInt 1; current := SInt 3 |})]
              (set_changes [] (run Sample.inspect ["version"; "qty"] None Sample.LineItem
                 [Assign 7 "version" (SInt 2); Assign 7 "qty" (SInt 3)] Sample.w0))).
  - reflexivity.
  - simpl. now left.
Defined.

(** *** Recording without a session *)

(** C7.  On an instance that no session holds, [record_changes] returns
    without an exception and leaves the world as it was, for every actor
    and every change type: nothing is added to any session and the buffer
    [__changes__] is not read, let alone cleared. *)
Theorem record_changes_detached inspect parent cls self changed_by change_type w :
  session (heap w self) = None ->
  record_changes inspect parent cls self changed_by change_type w = (Ok tt, w).
Proof.
  intros H. unfold record_changes, bind, object_session, gets.
  now rewrite H.
Qed.

(** Item 9 is in no session: recording its deletion does nothing, the
    buffered change of [qty] stays. *)
Lemma record_changes_detached_witness :
  record_changes Sample.inspect (Some Sample.Order) Sample.LineItem
    9 Sample.alice Deleted Sample.w_qty = (Ok tt, Sample.w_qty).
Proof.
  apply (record_changes_detached Sample.inspect (Some Sample.Order) Sample.LineItem
           9 Sample.alice Deleted Sample.w_qty).
  reflexivity.
Defined.

(** *** Writes between record calls *)




End TrackingProps.

(** ** The change ledger *)

Module LedgerProps.
Import Ledger.

(** For an entry whose [change_type] attribute resolves and which, when
    [full] is asked for, has its actor: [to_dict] returns a dictionary that
    holds the id of the entry, the type and id of the subject, the version,
    the payload and the timestamp; with [full] it holds the actor's own
    [to_dict()] under [user] and no [user_id], without [full] it holds the
    actor's identifier under [user_id] and no [user]. *)
Theorem to_dict_contents (self : Change) (full : bool) (t : pyval) (u : User) :
  change_type self = Some t ->
  (full = true -> user self = Some u) ->
  exists d,
    to_dict self full = Ok (PyDict d) /\
    py_get (SStr "id") d = Some (Atom (id self)) /\
    py_get (SStr "object_type") d = Some (Atom (object_type self)) /\
    py_get (SStr "object_id") d = Some (Atom (object_id self)) /\
    py_get (SStr "object_version") d = Some (Atom (int_or_none (object_version self))) /\
    py_get (SStr "change") d = Some (change self) /\
    py_get (SStr "created_at") d = Some (Atom (created_at self)) /\
    (if full
     then py_get (SStr "user") d = Some (User_to_dict u) /\
          py_get (SStr "user_id") d = None
     else py_get (SStr "user_id") d = Some (Atom (user_id self)) /\
          py_get (SStr "user") d = None).
Proof.
  intros Ht Hu. unfold to_dict. rewrite Ht. cbn [res_bind].
  destruct full.
  - rewrite (Hu eq_refl). eexists. split; [reflexivity|]. repeat split.
  - eexists. split; [reflexivity|]. repeat split.
Qed.

(** The first sample row, in full. *)
Lemma to_dict_contents_witness :
  exists d,
    to_dict (order_row 1 100 (Some 1%Z)) true = Ok (PyDict d) /\
    py_get (SStr "id") d = Some (Atom (SInt 1)) /\
    py_get (SStr "user") d = Some (User_to_dict alice) /\
    py_get (SStr "user_id") d = None.
Proof.
  destruct (to_dict_contents (order_row 1 100 (Some 1%Z)) true
              (Atom (SStr "modified")) alice eq_refl (fun _ => eq_refl))
    as (d & E & Hid & _ & _ & _ & _ & _ & Hu & Hn).
  exists d. repeat split; assumption.
Defined.

(** *** The latest entry *)

Section LastChange.
(** What the theorem needs of the database: the rows come back all, and
    each row before the rows whose version is not above its own. *)
Variable order_by_desc : list Change -> list Change.
Variable version_le : option Z -> option Z -> Prop.

Hypothesis order_by_perm : forall l, Permutation (order_by_desc l) l.
Hypothesis order_by_sorted : forall l, StronglySorted (descending version_le) (order_by_desc l).
Hypothesis version_le_refl : forall v, version_le v v.

End LastChange.

(** *** An instance of the database's ordering *)

Lemma version_leb_refl v : version_leb v v = true.
Proof. destruct v; cbn; [apply Z.leb_refl | reflexivity]. Qed.

Lemma version_leb_total a b : version_leb a b = false -> version_leb b a = true.
Proof. destruct a, b; cbn; try congruence. intros H. apply Z.leb_le. apply Z.leb_gt in H. lia. Qed.

Lemma version_leb_trans a b c :
  version_leb a b = true -> version_leb b c = true -> version_leb a c = true.
Proof.
  destruct a, b, c; cbn; try congruence.
  rewrite !Z.leb_le. lia.
Qed.

Lemma insert_desc_perm c l : Permutation (insert_desc c l) (c :: l).
Proof.
  induction l as [|c' l IH]; cbn; [reflexivity|].
  destruct (version_leb (object_version c') (object_version c)); [reflexivity|].
  rewrite IH. apply perm_swap.
Qed.

Lemma sort_desc_perm l : Permutation (sort_desc l) l.
Proof.
  induction l as [|c l IH]; cbn; [reflexivity|].
  rewrite insert_desc_perm. now constructor.
Qed.

Lemma insert_desc_sorted c l :
  StronglySorted descending_leb l -> StronglySorted descending_leb (insert_desc c l).
Proof.
  induction 1 as [|c' l Hs IH Hall]; cbn.
  - constructor; constructor.
  - destruct (version_leb (object_version c') (object_version c)) eqn:E.
    + constructor; [constructor; assumption|].
      constructor; [exact E|].
      rewrite Forall_forall in *. intros x Hx. specialize (Hall x Hx).
      unfold descending_leb, descending in *. eapply version_leb_trans; eauto.
    + constructor; [assumption|].
      rewrite Forall_forall in *. intros x Hx.
      apply (Permutation_in _ (insert_desc_perm c l)) in Hx.
      destruct Hx as [<- | Hx]; [|auto].
      unfold descending_leb, descending. now apply version_leb_total.
Qed.

Lemma sort_desc_sorted l : StronglySorted descending_leb (sort_desc l).
Proof.
  induction l as [|c l IH]; cbn; [constructor|]. now apply insert_desc_sorted.
Qed.

Example last_change_sample :
  last_change sort_desc sample_table {| Model_id := SInt 100; __tablename__ := "orders" |}
    = Some (order_row 3 100 (Some 3%Z)) /\
  last_change sort_desc sample_table {| Model_id := SInt 7; __tablename__ := "orders" |}
    = None.
Proof. split; reflexivity. Qed.


(** *** Entries the tracker records *)

(** C9.  An entry as [record_changes] builds it and the session stores it,
    whatever its subject, version, actor and payload: [to_dict], with
    [full] and without, raises [AttributeError] and produces no
    representation, the attribute [change_type] it reads being declared
    nowhere and passed by no constructor call.  The type of the change is
    in the payload, under the key [type]. *)
Theorem to_dict_of_recorded_entry_raises row_id subject_type subject_id version actor
        change_type changes created full :
  to_dict (recorded row_id subject_type subject_id version actor
             (PyDict (Tracking.payload change_type changes)) created) full
    = Raise AttributeError /\
  py_field "type" (PyDict (Tracking.payload change_type changes))
    = Some (Enum change_type).
Proof. split; reflexivity. Qed.

End LedgerProps.

(* ================================================================== *)
(** * Further properties of the tracker *)

Module TrackingMore.
Import Tracking History TrackingProps.

(** ** Relationship lookup *)

Lemma first_relation_None items target :
  first_relation items target = None <->
  forall key entity, In (key, entity) items -> entity <> target.
Proof.
  induction items as [|[k e] items IH]; cbn [first_relation].
  - split; [intros _ key entity [] | reflexivity].
  - destruct (String.eqb e target) eqn:E.
    + apply String.eqb_eq in E. subst e. split; [discriminate|].
      intros H. exfalso. apply (H k target); [now left | reflexivity].
    + apply String.eqb_neq in E. rewrite IH. split.
      * intros H key entity [[= <- <-] | Hin]; eauto.
      * intros H key entity Hin. apply (H key entity). now right.
Qed.

Lemma first_relation_Some items target key :
  first_relation items target = Some key <->
  exists before after,
    items = before ++ (key, target) :: after /\
    forall k e, In (k, e) before -> e <> target.
Proof.
  induction items as [|[k e] items IH]; cbn [first_relation].
  - split; [discriminate|]. intros (before & after & H & _).
    destruct before; discriminate H.
  - destruct (String.eqb e target) eqn:E.
    + apply String.eqb_eq in E. subst e. split.
      * intros [= ->]. exists [], items. split; [reflexivity | intros ? ? []].
      * intros (before & after & H & Hb). destruct before as [|[k0 e0] before].
        -- injection H as Hk _. now rewrite Hk.
        -- injection H as Hk He _. exfalso. apply (Hb k0 e0); [now left | now symmetry].
    + apply String.eqb_neq in E. rewrite IH. split.
      * intros (before & after & -> & Hb). exists ((k, e) :: before), after.
        split; [reflexivity|]. intros k0 e0 [[= <- <-] | Hin]; eauto.
      * intros (before & after & H & Hb). destruct before as [|[k0 e0] before].
        -- injection H as _ He _. congruence.
        -- injection H as _ _ Hi. exists before, after.
           split; [exact Hi|]. intros k1 e1 Hin. apply (Hb k1 e1). now right.
Qed.

(** X1.  For a mapped source class, [get_relation_attr] returns the key of
    the first relationship, in declaration order, whose other end is the
    target class: every relationship declared before it has another
    target.  It returns [None] exactly when no relationship of the source
    has that target.  For a class that is not mapped it raises
    [NoInspectionAvailable]. *)
Theorem get_relation_attr_first_match inspect source target :
  (forall m, inspect source = Some m ->
     (forall key,
        get_relation_attr inspect source target = Ok (Some key) <->
        exists before after,
          relationships m = before ++ (key, target) :: after /\
          forall k e, In (k, e) before -> e <> target) /\
     (get_relation_attr inspect source target = Ok None <->
      forall key entity, In (key, entity) (relationships m) -> entity <> target)) /\
  (inspect source = None ->
     get_relation_attr inspect source target = Raise NoInspectionAvailable).
Proof.
  unfold get_relation_attr, inspect_, res_bind. split.
  - intros m ->. split.
    + intros key. rewrite <- first_relation_Some.
      split; [intros [= ->] | intros ->]; reflexivity.
    + rewrite <- first_relation_None.
      split; [intros [= ->] | intros ->]; reflexivity.
  - intros ->. reflexivity.
Qed.

(** [Order] with two relationships to [LineItem]: the first one declared
    is the one found. *)
Lemma get_relation_attr_first_match_witness :
  get_relation_attr
    (fun c => if String.eqb c Sample.Order
              then Some {| column_attrs := []; relationships := Variations.two_relations |}
              else None)
    Sample.Order Sample.LineItem = Ok (Some "items").
Proof.
  apply (proj1 (get_relation_attr_first_match
                  (fun c => if String.eqb c Sample.Order
                            then Some {| column_attrs := [];
                                         relationships := Variations.two_relations |}
                            else None)
                  Sample.Order Sample.LineItem)
           {| column_attrs := []; relationships := Variations.two_relations |} eq_refl).
  exists [("customer", "Customer")], [("archived_items", Sample.LineItem)].
  split; [reflexivity|].
  intros k e [[= <- <-] | []]. discriminate.
Defined.

(** ** What a record call can do *)

(** X2.  Whatever its arguments and the state, [record_changes] leaves
    every instance as it was, and either adds nothing or returns after
    adding exactly one entry, to the session that holds the instance, with
    the given actor and the version attribute of the instance ([None]
    when it has none).  A call that raises has added nothing. *)
Theorem record_changes_effects inspect parent cls self changed_by change_type w r w' :
  record_changes inspect parent cls self changed_by change_type w = (r, w') ->
  heap w' = heap w /\
  (added w' = added w \/
   exists s entry,
     r = Ok tt /\
     session (heap w self) = Some s /\
     added w' = added w ++ [(s, entry)] /\
     user entry = changed_by /\
     object_version entry = dict_get_default "version" SNone (attrs (heap w self))) /\
  (forall e, r = Raise e -> added w' = added w).
Proof.
  unfold record_changes, bind at 1, object_session, gets.
  destruct (session (heap w self)) as [s|] eqn:Hs;
    [|intros [= <- <-]; split; [reflexivity | split; [now left | discriminate]]].
  unfold bind at 1.
  destruct (get_object_changes inspect self true w) as [[changes|e0] w1] eqn:He;
    destruct (get_object_changes_frame _ _ _ _ _ _ He) as [Hh Ha];
    [|intros [= <- <-]; split; [exact Hh | split; [now left | intros _ _; exact Ha]]].
  destruct (negb (dict_bool changes) && Type_eqb change_type Modified);
    [intros [= <- <-]; split; [exact Hh | split; [now left | discriminate]]|].
  unfold bind, ret, lift, getattr, getattr_default, session_add, modify, raise.
  destruct parent as [p|].
  - destruct (get_relation_attr inspect p cls);
      [|intros [= <- <-]; split; [exact Hh | split; [now left | intros _ _; exact Ha]]].
    destruct (dict_get "id" (attrs (heap w1 self)));
      [|intros [= <- <-]; split; [exact Hh | split; [now left | intros _ _; exact Ha]]].
    destruct (get_relation_attr inspect cls p) as [[k|]|];
      try (intros [= <- <-]; split; [exact Hh | split; [now left | intros _ _; exact Ha]]).
    intros [= <- <-]. cbn [heap added]. split; [exact Hh|]. split; [|discriminate].
    right. eexists. eexists. split; [reflexivity|]. split; [reflexivity|].
    rewrite Ha, Hh. split; [reflexivity|]. split; reflexivity.
  - intros [= <- <-]. cbn [heap added]. split; [exact Hh|]. split; [|discriminate].
    right. eexists. eexists. split; [reflexivity|]. split; [reflexivity|].
    rewrite Ha, Hh. split; [reflexivity|]. split; reflexivity.
Qed.

(** Item 7 with the change of [qty] buffered, recorded under the parent. *)
Lemma record_changes_effects_witness :
  heap (snd (record_changes Sample.inspect (Some Sample.Order) Sample.LineItem
               7 Sample.alice Modified Sample.w_qty)) = heap Sample.w_qty.
Proof.
  exact (proj1 (record_changes_effects Sample.inspect (Some Sample.Order) Sample.LineItem
                  7 Sample.alice Modified Sample.w_qty _ _ eq_refl)).
Defined.

(** X3.  Without a parent, on an instance held by a session and with
    reflection on its class succeeding, [record_changes] always returns.
    It empties the buffer; it adds nothing when the extracted change set is
    empty and the type is [Modified], and otherwise adds one entry about the
    instance itself whose payload is [{type: change_type, changes: <the
    extracted change set>}]. *)
Theorem record_changes_without_parent inspect cls self changed_by change_type
        w s m columns :
  session (heap w self) = Some s ->
  inspect (__class__ (heap w self)) = Some m ->
  build_columns (column_attrs m) [] = Ok columns ->
  exists w',
    record_changes inspect None cls self changed_by change_type w = (Ok tt, w') /\
    __changes__ w' = [] /\
    added w' =
      if negb (dict_bool (collect_changes columns (__changes__ w) []))
         && Type_eqb change_type Modified
      then added w
      else added w ++
           [(s, {| object := SRef self;
                   object_version :=
                     dict_get_default "version" SNone (attrs (heap w self));
                   user := changed_by;
                   change :=
                     PyDict
                       [(SStr "type", Enum change_type);
                        (SStr "changes",
                          changes_to_py (collect_changes columns (__changes__ w) []))] |})].
Proof.
  intros Hs Hm Hc.
  destruct (get_object_changes_eq inspect self true w m columns Hm Hc)
    as (w1 & He & Hb & Hh & Ha).
  destruct (negb (dict_bool (collect_changes columns (__changes__ w) []))
            && Type_eqb change_type Modified) eqn:Hgo.
  - exists w1. split; [|split; [exact Hb | exact Ha]].
    unfold record_changes, bind at 1, object_session, gets.
    rewrite Hs. unfold bind at 1. rewrite He, Hgo. reflexivity.
  - eexists. split; [|split].
    + eapply record_changes_plain; eauto.
    + exact Hb.
    + cbn [staged added]. now rewrite Ha.
Qed.

(** Item 7 with the change of [qty] buffered, no parent. *)
Lemma record_changes_without_parent_witness :
  exists w',
    record_changes Sample.inspect None Sample.LineItem 7 Sample.alice Modified Sample.w_qty
      = (Ok tt, w') /\
    __changes__ w' = [] /\
    added w' =
      [(1, {| object := SRef 7; object_version := SNone; user := Sample.alice;
              change :=
                PyDict
                  [(SStr "type", Enum Modified);
                   (SStr "changes",
                     changes_to_py
                       [("qty", {| previous := SInt 1; current := SInt 3 |})])] |})].
Proof.
  exact (record_changes_without_parent Sample.inspect Sample.LineItem 7 Sample.alice
           Modified Sample.w_qty 1 Sample.item_mapper
           [("id", "id"); ("qty", "qty"); ("order_id", "order_id")]
           eq_refl eq_refl eq_refl).
Defined.

(** ** Configuration errors under a parent *)

(** X4.  A parent is configured and the class declares no relationship
    whose other end is the parent class.  On an instance held by a session
    that has an [id], once the extraction has returned a change set that is
    not skipped, [record_changes] raises [TypeError]: the extraction has
    taken the changes out of the buffer and no entry is added. *)
Theorem record_changes_without_back_relation inspect parent cls self changed_by
        change_type w s changes w1 mp mc id :
  session (heap w self) = Some s ->
  get_object_changes inspect self true w = (Ok changes, w1) ->
  changes <> [] \/ change_type <> Modified ->
  inspect parent = Some mp ->
  inspect cls = Some mc ->
  (forall key entity, In (key, entity) (relationships mc) -> entity <> parent) ->
  dict_get "id" (attrs (heap w self)) = Some id ->
  record_changes inspect (Some parent) cls self changed_by change_type w
    = (Raise TypeError, w1) /\
  added w1 = added w /\
  (__changes__ w <> [] -> __changes__ w1 = []).
Proof.
  intros Hs He Hgo Hp Hc Hnone Hid.
  destruct (get_object_changes_frame _ _ _ _ _ _ He) as [_ Ha].
  split; [|split; [exact Ha|]].
  - eapply record_changes_no_way_back; eauto.
    + destruct Hgo as [Hne | Hct];
        [now apply nonempty_goes_on|].
      destruct changes; [now apply empty_goes_on | reflexivity].
    + now apply first_relation_None.
  - intros Hne. revert He.
    unfold get_object_changes, bind, gets, lift, modify, ret.
    destruct (__changes__ w) as [|kc b]; [congruence|]. cbn [dict_bool].
    destruct (inspect_ inspect (__class__ (heap w self))); [|discriminate].
    destruct (build_columns (column_attrs a) []); [|discriminate].
    intros [= _ <-]. reflexivity.
Qed.

(** The sample application without [LineItem.order]. *)
Lemma record_changes_without_back_relation_witness :
  record_changes Sample.inspect_one_way (Some Sample.Order) Sample.LineItem
    7 Sample.alice Modified Sample.w_qty
    = (Raise TypeError, set_changes [] Sample.w_qty) /\
  added (set_changes [] Sample.w_qty) = added Sample.w_qty /\
  (__changes__ Sample.w_qty <> [] -> __changes__ (set_changes [] Sample.w_qty) = []).
Proof.
  apply (record_changes_without_back_relation Sample.inspect_one_way Sample.Order
           Sample.LineItem 7 Sample.alice Modified Sample.w_qty 1
           [("qty", {| previous := SInt 1; current := SInt 3 |})]
           (set_changes [] Sample.w_qty)
           Sample.order_mapper Sample.one_way_mapper (SInt 7));
    try reflexivity.
  - left. discriminate.
  - intros key entity [].
Defined.

(** X5.  A parent is configured that is not a mapped class.  On an
    instance held by a session, once the extraction has returned a change
    set that is not skipped, [record_changes] raises
    [NoInspectionAvailable] and adds no entry. *)
Theorem record_changes_unmapped_parent inspect parent cls self changed_by
        change_type w s changes w1 :
  session (heap w self) = Some s ->
  get_object_changes inspect self true w = (Ok changes, w1) ->
  changes <> [] \/ change_type <> Modified ->
  inspect parent = None ->
  record_changes inspect (Some parent) cls self changed_by change_type w
    = (Raise NoInspectionAvailable, w1) /\
  added w1 = added w.
Proof.
  intros Hs He Hgo Hp.
  destruct (get_object_changes_frame _ _ _ _ _ _ He) as [_ Ha].
  split; [|exact Ha].
  assert (Hgo' : negb (dict_bool changes) && Type_eqb change_type Modified = false).
  { destruct Hgo as [Hne | Hct]; [now apply nonempty_goes_on|].
    destruct changes; [now apply empty_goes_on | reflexivity]. }
  unfold record_changes, bind at 1, object_session, gets.
  rewrite Hs. unfold bind at 1. rewrite He, Hgo'.
  unfold bind, lift, get_relation_attr, inspect_, res_bind. now rewrite Hp.
Qed.

Lemma record_changes_unmapped_parent_witness :
  record_changes Variations.inspect_unmapped_parent (Some Sample.Order) Sample.LineItem
    7 Sample.alice Created Sample.w0
    = (Raise NoInspectionAvailable, Sample.w0) /\
  added Sample.w0 = added Sample.w0.
Proof.
  apply (record_changes_unmapped_parent Variations.inspect_unmapped_parent Sample.Order
           Sample.LineItem 7 Sample.alice Created Sample.w0 1 [] Sample.w0);
    try reflexivity.
  right. discriminate.
Defined.

(** X6.  A parent is configured that declares no relationship to the
    class, while the class has a relationship [back_attr] to the parent.
    [record_changes] does not raise: it adds one entry about what the
    instance holds under [back_attr], whose payload nests the record under
    the key [None]. *)
Theorem record_changes_without_forward_relation inspect parent cls self changed_by
        change_type w s changes w1 mp mc back_attr id :
  session (heap w self) = Some s ->
  get_object_changes inspect self true w = (Ok changes, w1) ->
  changes <> [] \/ change_type <> Modified ->
  inspect parent = Some mp ->
  (forall key entity, In (key, entity) (relationships mp) -> entity <> cls) ->
  inspect cls = Some mc ->
  first_relation (relationships mc) parent = Some back_attr ->
  dict_get "id" (attrs (heap w self)) = Some id ->
  exists entry w2,
    record_changes inspect (Some parent) cls self changed_by change_type w = (Ok tt, w2) /\
    added w2 = added w ++ [(s, entry)] /\
    object entry = dict_get_default back_attr (SRef self) (attrs (heap w self)) /\
    change entry =
      PyDict
        [(SStr "type", Enum Modified);
         (SStr "changes",
           PyDict
             [(SNone,
               PyList
                 [PyDict
                    [(SStr "type", Enum change_type);
                     (SStr "changes", changes_to_py changes);
                     (SStr "id", PyDict [(SStr "previous", Atom id);
                                         (SStr "current", Atom id)])]])])].
Proof.
  intros Hs He Hgo Hp Hnone Hc Hba Hid.
  destruct (get_object_changes_frame _ _ _ _ _ _ He) as [_ Ha].
  assert (Hgo' : negb (dict_bool changes) && Type_eqb change_type Modified = false).
  { destruct Hgo as [Hne | Hct]; [now apply nonempty_goes_on|].
    destruct changes; [now apply empty_goes_on | reflexivity]. }
  apply first_relation_None in Hnone.
  eexists. eexists. split.
  - eapply record_changes_redirected; eauto.
  - cbn [staged added object change]. rewrite Ha. repeat split; reflexivity.
Qed.

Lemma record_changes_without_forward_relation_witness :
  exists entry w2,
    record_changes Variations.inspect_no_forward (Some Sample.Order) Sample.LineItem
      7 Sample.alice Modified Sample.w_qty = (Ok tt, w2) /\
    added w2 = added Sample.w_qty ++ [(1, entry)] /\
    object entry = dict_get_default "order" (SRef 7) (attrs (heap Sample.w_qty 7)) /\
    change entry =
      PyDict
        [(SStr "type", Enum Modified);
         (SStr "changes",
           PyDict
             [(SNone,
               PyList
                 [PyDict
                    [(SStr "type", Enum Modified);
                     (SStr "changes",
                       changes_to_py
                         [("qty", {| previous := SInt 1; current := SInt 3 |})]);
                     (SStr "id", PyDict [(SStr "previous", Atom (SInt 7));
                                         (SStr "current", Atom (SInt 7))])]])])].
Proof.
  apply (record_changes_without_forward_relation Variations.inspect_no_forward
           Sample.Order Sample.LineItem 7 Sample.alice Modified Sample.w_qty 1
           [("qty", {| previous := SInt 1; current := SInt 3 |})]
           (set_changes [] Sample.w_qty)
           {| column_attrs := column_attrs Sample.order_mapper; relationships := [] |}
           Sample.item_mapper "order" (SInt 7));
    try reflexivity.
  - left. discriminate.
  - intros key entity [].
Defined.

(** ** Recording twice *)

(** X7.  After a record call on an instance held by a session (reflection
    on its class succeeding), whether that call returned or raised, a
    further [record_changes] with [Modified] on any instance of the class,
    with no write in between, returns and changes nothing: the same changes
    are never recorded twice. *)
Theorem record_changes_again_is_silent inspect parent cls self changed_by change_type
        w s m columns r w1 other changed_by' :
  session (heap w self) = Some s ->
  inspect (__class__ (heap w self)) = Some m ->
  build_columns (column_attrs m) [] = Ok columns ->
  record_changes inspect parent cls self changed_by change_type w = (r, w1) ->
  record_changes inspect parent cls other changed_by' Modified w1 = (Ok tt, w1).
Proof.
  intros Hs Hm Hc Hr.
  destruct (record_changes_flushes _ _ _ _ _ _ _ _ _ _ _ _ Hs Hm Hc Hr) as [Hb _].
  unfold record_changes, bind at 1, object_session, gets.
  destruct (session (heap w1 other)); [|reflexivity].
  unfold bind at 1. now rewrite (get_object_changes_empty inspect other true w1 Hb).
Qed.

Lemma record_changes_again_is_silent_witness :
  let w1 := snd (record_changes Sample.inspect (Some Sample.Order) Sample.LineItem
                   7 Sample.alice Modified Sample.w_qty) in
  record_changes Sample.inspect (Some Sample.Order) Sample.LineItem
    8 Sample.alice Modified w1 = (Ok tt, w1).
Proof.
  exact (record_changes_again_is_silent Sample.inspect (Some Sample.Order) Sample.LineItem
           7 Sample.alice Modified Sample.w_qty 1 Sample.item_mapper
           [("id", "id"); ("qty", "qty"); ("order_id", "order_id")]
           _ _ 8 Sample.alice eq_refl eq_refl eq_refl eq_refl).
Defined.

(** ** What an assignment touches *)

(** X8.  An assignment [self.key = value], returning or raising, touches
    nothing but the attribute [key] of [self] and the buffered entry for
    [key]: the other instances, the other attributes of [self], its class
    and session, the buffered entries of the other names and what the
    sessions were given stay as they were. *)
Theorem setattr_frame attributes self key value w r w' :
  __setattr__ attributes self key value w = (r, w') ->
  added w' = added w /\
  (forall o, o <> self -> heap w' o = heap w o) /\
  (forall k, k <> key ->
     dict_get k (attrs (heap w' self)) = dict_get k (attrs (heap w self))) /\
  __class__ (heap w' self) = __class__ (heap w self) /\
  session (heap w' self) = session (heap w self) /\
  (forall k, k <> key -> dict_get k (__changes__ w') = dict_get k (__changes__ w)).
Proof.
  unfold __setattr__, bind, getattr, gets, modify, ret.
  assert (Hset : forall c,
    let w0 := set_attr self key value (set_changes c w) in
    added w0 = added w /\
    (forall o, o <> self -> heap w0 o = heap w o) /\
    (forall k, k <> key ->
       dict_get k (attrs (heap w0 self)) = dict_get k (attrs (heap w self))) /\
    __class__ (heap w0 self) = __class__ (heap w self) /\
    session (heap w0 self) = session (heap w self)).
  { intros c. cbn. rewrite Nat.eqb_refl. cbn. split; [reflexivity|]. split; [|split].
    - intros o Ho. apply Nat.eqb_neq in Ho. now rewrite Ho.
    - intros k Hk. now apply dict_get_set_other.
    - split; reflexivity. }
  destruct (mem key (tracked attributes)).
  - destruct (dict_get key (attrs (heap w self))) as [prev|].
    + intros [= _ <-].
      destruct (Hset (dict_set key
                        {| previous := previous (dict_get_default key
                                         {| previous := prev; current := SNone |}
                                         (__changes__ w));
                           current := value |} (__changes__ w)))
        as (H1 & H2 & H3 & H4 & H5).
      repeat split; try assumption.
      intros k Hk. cbn. now apply dict_get_set_other.
    + intros [= _ <-]. repeat split; reflexivity.
  - intros [= _ <-].
    assert (E : set_attr self key value w = set_attr self key value
                  (set_changes (__changes__ w) w)) by reflexivity.
    rewrite E.
    destruct (Hset (__changes__ w)) as (H1 & H2 & H3 & H4 & H5).
    repeat split; try assumption.
Qed.

(** Writing [qty] of item 7 leaves item 8 as it was. *)
Lemma setattr_frame_witness :
  heap Sample.w_qty 8 = heap Sample.w0 8.
Proof.
  refine (proj1 (proj2 (setattr_frame ["qty"] 7 "qty" (SInt 3) Sample.w0 _ _ eq_refl))
            8 _).
  discriminate.
Defined.

(** X9.  A tracked name that the instance has no attribute for: the
    assignment raises [AttributeError] and nothing changes, the attribute
    is not created (the value before the write is read first, also when an
    entry for the name is buffered already).  For a name that is not
    tracked the same assignment returns and creates the attribute. *)
Theorem setattr_of_missing_attribute attributes self key value w :
  dict_get key (attrs (heap w self)) = None ->
  if mem key (tracked attributes)
  then __setattr__ attributes self key value w = (Raise AttributeError, w)
  else exists w',
         __setattr__ attributes self key value w = (Ok tt, w') /\
         dict_get key (attrs (heap w' self)) = Some value /\
         __changes__ w' = __changes__ w.
Proof.
  intros Hnone. unfold __setattr__, bind, getattr, gets, modify, ret.
  destruct (mem key (tracked attributes)).
  - now rewrite Hnone.
  - eexists. split; [reflexivity|]. cbn. rewrite Nat.eqb_refl. cbn.
    split; [apply dict_get_set_same | reflexivity].
Qed.

(** Item 7 has no attribute [note]; [note] is tracked. *)
Lemma setattr_of_missing_attribute_witness :
  __setattr__ ["qty"; "note"] 7 "note" (SStr "fragile") Sample.w_qty
    = (Raise AttributeError, Sample.w_qty).
Proof.
  exact (setattr_of_missing_attribute ["qty"; "note"] 7 "note" (SStr "fragile")
           Sample.w_qty eq_refl).
Defined.

(** ** Writes that cancel out *)

Lemma dict_set_absent {V : Type} (d : dict V) k v :
  dict_get k d = None -> dict_set k v d = d ++ [(k, v)].
Proof.
  induction d as [|[k' v'] d IH]; cbn; [reflexivity|].
  destruct (String.eqb k k'); [discriminate|]. intros H. now rewrite IH.
Qed.

Lemma dict_set_at_end {V : Type} (d : dict V) k v v' :
  dict_get k d = None -> dict_set k v' (d ++ [(k, v)]) = d ++ [(k, v')].
Proof.
  induction d as [|[k0 v0] d IH]; cbn.
  - now rewrite String.eqb_refl.
  - destruct (String.eqb k k0); [discriminate|]. intros H. now rewrite IH.
Qed.

Lemma dict_get_at_end {V : Type} (d : dict V) k v :
  dict_get k d = None -> dict_get k (d ++ [(k, v)]) = Some v.
Proof.
  induction d as [|[k0 v0] d IH]; cbn.
  - now rewrite String.eqb_refl.
  - destruct (String.eqb k k0); [discriminate | exact IH].
Qed.

(** The loop of the extraction goes through the buffer from the front. *)
Lemma collect_changes_app columns a b : forall result,
  collect_changes columns (a ++ b) result =
  collect_changes columns b (collect_changes columns a result).
Proof.
  induction a as [|[key c] a IH]; intros result; [reflexivity|].
  cbn [app collect_changes]. destruct (py_ne (current c) (previous c)); apply IH.
Qed.

(** An assignment keeps the class and the session of every instance. *)
Lemma setattr_keeps_identity attributes self key value w r w' :
  __setattr__ attributes self key value w = (r, w') ->
  forall o, __class__ (heap w' o) = __class__ (heap w o) /\
            session (heap w' o) = session (heap w o).
Proof.
  unfold __setattr__, bind, getattr, gets, modify, ret.
  assert (Hset : forall w0 o,
            __class__ (heap (set_attr self key value w0) o) = __class__ (heap w0 o) /\
            session (heap (set_attr self key value w0) o) = session (heap w0 o)).
  { intros w0 o. cbn. destruct (Nat.eqb o self) eqn:E; [|now split].
    apply Nat.eqb_eq in E. subst o. now split. }
  destruct (mem key (tracked attributes)).
  - destruct (dict_get key (attrs (heap w self))).
    + intros [= _ <-] o. apply (Hset (set_changes _ w) o).
    + intros [= _ <-] o. now split.
  - intros [= _ <-] o. apply Hset.
Qed.

(** Assignments to a tracked attribute whose entry stands last in the
    buffer: the entry is rewritten where it stands. *)
Lemma assign_seq_at_end attributes self key values : forall w d c cur,
  mem key (tracked attributes) = true ->
  __changes__ w = d ++ [(key, c)] ->
  dict_get key d = None ->
  dict_get key (attrs (heap w self)) = Some cur ->
  exists w',
    assign_seq attributes self key values w = (Ok tt, w') /\
    __changes__ w' = d ++ [(key, {| previous := previous c;
                                    current := last values (current c) |})] /\
    (forall o, __class__ (heap w' o) = __class__ (heap w o) /\
               session (heap w' o) = session (heap w o)) /\
    added w' = added w.
Proof.
  induction values as [|v rest IH]; intros w d c cur Ht Hb Hd Hcur.
  - exists w. cbn. destruct c; auto.
  - assert (Hstep :
      __setattr__ attributes self key v w =
        (Ok tt, set_attr self key v
                  (set_changes (d ++ [(key, {| previous := previous c; current := v |})]) w))).
    { unfold __setattr__, bind, getattr, gets, modify, ret. rewrite Ht, Hcur.
      cbv beta iota. unfold dict_get_default.
      rewrite Hb, (dict_get_at_end d key c Hd), (dict_set_at_end d key c _ Hd).
      reflexivity. }
    destruct (IH (set_attr self key v
                    (set_changes (d ++ [(key, {| previous := previous c; current := v |})]) w))
                 d {| previous := previous c; current := v |} v Ht eq_refl Hd)
      as (w' & E & Hb' & Hid & Ha).
    { cbn. rewrite Nat.eqb_refl. cbn. apply dict_get_set_same. }
    exists w'. split; [|split; [|split]].
    + cbn [assign_seq]. unfold bind at 1. now rewrite Hstep.
    + rewrite Hb'. cbn [previous current]. now rewrite last_cons.
    + intros o. destruct (Hid o) as [H1 H2]. rewrite H1, H2.
      apply (setattr_keeps_identity attributes self key v w _ _ Hstep o).
    + rewrite Ha. reflexivity.
Qed.

(** Assignments to a tracked attribute that has no buffered entry: the
    entry goes to the end of the buffer. *)
Lemma assign_seq_appends attributes self key v1 rest w before :
  mem key (tracked attributes) = true ->
  dict_get key (__changes__ w) = None ->
  dict_get key (attrs (heap w self)) = Some before ->
  exists w',
    assign_seq attributes self key (v1 :: rest) w = (Ok tt, w') /\
    __changes__ w' =
      __changes__ w ++ [(key, {| previous := before; current := last (v1 :: rest) v1 |})] /\
    (forall o, __class__ (heap w' o) = __class__ (heap w o) /\
               session (heap w' o) = session (heap w o)) /\
    added w' = added w.
Proof.
  intros Ht Hnone Hcur.
  assert (Hstep :
    __setattr__ attributes self key v1 w =
      (Ok tt, set_attr self key v1
                (set_changes (__changes__ w ++
                                [(key, {| previous := before; current := v1 |})]) w))).
  { unfold __setattr__, bind, getattr, gets, modify, ret. rewrite Ht, Hcur.
    cbv beta iota. unfold dict_get_default. rewrite Hnone. cbn [previous].
    now rewrite (dict_set_absent _ _ _ Hnone). }
  destruct (assign_seq_at_end attributes self key rest
              (set_attr self key v1
                 (set_changes (__changes__ w ++
                                 [(key, {| previous := before; current := v1 |})]) w))
              (__changes__ w)
              {| previous := before; current := v1 |} v1 Ht eq_refl Hnone)
    as (w' & E & Hb' & Hid & Ha).
  { cbn. rewrite Nat.eqb_refl. cbn. apply dict_get_set_same. }
  exists w'. split; [|split; [|split]].
  - cbn [assign_seq]. unfold bind at 1. now rewrite Hstep.
  - rewrite Hb'. cbn [previous current]. now rewrite last_cons.
  - intros o. destruct (Hid o) as [H1 H2]. rewrite H1, H2.
    apply (setattr_keeps_identity attributes self key v1 w _ _ Hstep o).
  - rewrite Ha. reflexivity.
Qed.

(** X10.  Writes to a tracked attribute, with nothing buffered for it
    before, the last of which gives the attribute a value equal to the one
    it held before the first: the extraction that follows returns what it
    would have returned without these writes.  A value that is set and then
    set back is not reported. *)
Theorem reverted_writes_are_not_reported inspect attributes self key v1 rest w before
        m columns reset :
  mem key (tracked attributes) = true ->
  dict_get key (__changes__ w) = None ->
  dict_get key (attrs (heap w self)) = Some before ->
  py_eq (last (v1 :: rest) v1) before = true ->
  inspect (__class__ (heap w self)) = Some m ->
  build_columns (column_attrs m) [] = Ok columns ->
  exists w',
    assign_seq attributes self key (v1 :: rest) w = (Ok tt, w') /\
    fst (get_object_changes inspect self reset w') =
      Ok (collect_changes columns (__changes__ w) []) /\
    fst (get_object_changes inspect self reset w) =
      Ok (collect_changes columns (__changes__ w) []).
Proof.
  intros Ht Hnone Hcur Heq Hm Hc.
  destruct (assign_seq_appends attributes self key v1 rest w before Ht Hnone Hcur)
    as (w' & E & Hb & Hid & _).
  exists w'. split; [exact E|]. split.
  - assert (Hm' : inspect (__class__ (heap w' self)) = Some m)
      by (destruct (Hid self) as [-> _]; exact Hm).
    destruct (get_object_changes_eq inspect self reset w' m columns Hm' Hc)
      as (w2 & E2 & _).
    rewrite E2. cbn [fst]. rewrite Hb, collect_changes_app.
    cbn [collect_changes current previous]. unfold py_ne. now rewrite Heq.
  - destruct (get_object_changes_eq inspect self reset w m columns Hm Hc)
      as (w2 & E2 & _).
    now rewrite E2.
Qed.

(** Item 7 holds [qty = 1]; it is written 3 and then 1 again. *)
Lemma reverted_writes_are_not_reported_witness :
  exists w',
    assign_seq ["qty"] 7 "qty" [SInt 3; SInt 1] Sample.w0 = (Ok tt, w') /\
    fst (get_object_changes Sample.inspect 7 true w') = Ok [] /\
    fst (get_object_changes Sample.inspect 7 true Sample.w0) = Ok [].
Proof.
  exact (reverted_writes_are_not_reported Sample.inspect ["qty"] 7 "qty" (SInt 3)
           [SInt 1] Sample.w0 (SInt 1) Sample.item_mapper
           [("id", "id"); ("qty", "qty"); ("order_id", "order_id")] true
           eq_refl eq_refl eq_refl eq_refl eq_refl eq_refl).
Defined.

(** X11.  A record call on an instance that no session holds does not
    take the buffered changes: for writes to a tracked attribute before
    and after such a call, the buffered entry keeps as [previous] the value
    the attribute held before the first of all these writes. *)
Theorem detached_record_keeps_previous inspect attributes parent cls self key
        v0 earlier v1 later changed_by change_type w before :
  session (heap w self) = None ->
  mem key (tracked attributes) = true ->
  dict_get key (__changes__ w) = None ->
  dict_get key (attrs (heap w self)) = Some before ->
  exists w1 w2,
    assign_seq attributes self key (v0 :: earlier) w = (Ok tt, w1) /\
    record_changes inspect parent cls self changed_by change_type w1 = (Ok tt, w1) /\
    assign_seq attributes self key (v1 :: later) w1 = (Ok tt, w2) /\
    dict_get key (__changes__ w2) =
      Some {| previous := before; current := last (v1 :: later) v1 |} /\
    dict_get key (attrs (heap w1 self)) = Some (last (v0 :: earlier) v0).
Proof.
  intros Hs Ht Hnone Hcur.
  destruct (assign_seq_appends attributes self key v0 earlier w before Ht Hnone Hcur)
    as (w1 & E1 & Hb1 & Hid1 & _).
  assert (Hbuf1 : dict_get key (__changes__ w1) =
                  Some {| previous := before; current := last (v0 :: earlier) v0 |})
    by (rewrite Hb1; now apply dict_get_at_end).
  assert (Hattr1 : dict_get key (attrs (heap w1 self)) = Some (last (v0 :: earlier) v0)).
  { destruct (setattr_tracked attributes self key v0 w before Ht Hcur)
      as (wa & Ea & Hba & Haa & _).
    rewrite Hnone in Hba.
    destruct (assign_seq_buffered attributes self key earlier wa _ v0 Ht Hba Haa)
      as (wb & Eb & _ & Hab).
    assert (E1' : assign_seq attributes self key (v0 :: earlier) w = (Ok tt, wb))
      by (cbn [assign_seq]; unfold bind at 1; now rewrite Ea).
    rewrite E1 in E1'. injection E1' as ->. now rewrite last_cons. }
  destruct (assign_seq_buffered attributes self key (v1 :: later) w1 _ _ Ht Hbuf1 Hattr1)
    as (w2 & E2 & Hb2 & _).
  exists w1, w2. split; [exact E1|]. split; [|split; [exact E2|split; [|exact Hattr1]]].
  - unfold record_changes, bind, object_session, gets.
    destruct (Hid1 self) as [_ ->]. now rewrite Hs.
  - rewrite Hb2. cbn [previous current]. now rewrite !last_cons.
Qed.

(** Item 9 is in no session and holds [qty = 2]: it is written 5, recorded
    (to no effect) and written 6. *)
Lemma detached_record_keeps_previous_witness :
  exists w1 w2,
    assign_seq ["qty"] 9 "qty" [SInt 5] Sample.w0 = (Ok tt, w1) /\
    record_changes Sample.inspect None Sample.LineItem 9 Sample.alice Modified w1
      = (Ok tt, w1) /\
    assign_seq ["qty"] 9 "qty" [SInt 6] w1 = (Ok tt, w2) /\
    dict_get "qty" (__changes__ w2) = Some {| previous := SInt 2; current := SInt 6 |} /\
    dict_get "qty" (attrs (heap w1 9)) = Some (SInt 5).
Proof.
  exact (detached_record_keeps_previous Sample.inspect ["qty"] None Sample.LineItem
           9 "qty" (SInt 5) [] (SInt 6) [] Sample.alice Modified Sample.w0 (SInt 2)
           eq_refl eq_refl eq_refl eq_refl).
Defined.

(** ** The extraction: failures, purity, lookups *)

Lemma build_columns_raises cas : forall columns e,
  build_columns cas columns = Raise e ->
  e = ValueError /\
  exists key cols, In (key, cols) cas /\ length cols <> 1.
Proof.
  induction cas as [|[key cols] cas IH]; intros columns e; cbn [build_columns];
    [discriminate|].
  destruct cols as [|col [|col' cols]].
  - intros [= <-]. split; [reflexivity|]. exists key, []. split; [now left | discriminate].
  - intros H. destruct (IH _ _ H) as (-> & k & cs & Hin & Hlen).
    split; [reflexivity|]. exists k, cs. split; [now right | assumption].
  - intros [= <-]. split; [reflexivity|]. exists key, (col :: col' :: cols).
    split; [now left | discriminate].
Qed.

Lemma build_columns_bad cas key cols :
  In (key, cols) cas -> length cols <> 1 ->
  forall columns, build_columns cas columns = Raise ValueError.
Proof.
  induction cas as [|[k cs] cas IH]; intros Hin Hlen columns; [destruct Hin|].
  cbn [build_columns]. destruct Hin as [[= -> ->] | Hin].
  - destruct cols as [|col [|col' cols]]; [reflexivity | now cbn in Hlen | reflexivity].
  - destruct cs as [|col [|col' cs]]; [reflexivity | now apply IH | reflexivity].
Qed.

(** X12.  When [get_object_changes] raises, the buffer was not empty and
    nothing has changed, the buffer included (also under [reset]); the
    exception is [NoInspectionAvailable], the class of the object not being
    mapped, or [ValueError], one of its column attributes not standing for
    exactly one column.  Conversely each of the two makes the extraction
    raise as soon as something is buffered; with an empty buffer it returns
    the empty mapping whatever the class. *)
Theorem get_object_changes_raises_iff inspect obj reset w :
  (forall e w',
     get_object_changes inspect obj reset w = (Raise e, w') ->
     w' = w /\ __changes__ w <> [] /\
     (e = NoInspectionAvailable /\ inspect (__class__ (heap w obj)) = None \/
      e = ValueError /\
      exists m key cols,
        inspect (__class__ (heap w obj)) = Some m /\
        In (key, cols) (column_attrs m) /\ length cols <> 1)) /\
  (__changes__ w <> [] ->
   inspect (__class__ (heap w obj)) = None ->
   get_object_changes inspect obj reset w = (Raise NoInspectionAvailable, w)) /\
  (__changes__ w <> [] ->
   forall m key cols,
     inspect (__class__ (heap w obj)) = Some m ->
     In (key, cols) (column_attrs m) -> length cols <> 1 ->
     get_object_changes inspect obj reset w = (Raise ValueError, w)) /\
  (__changes__ w = [] -> get_object_changes inspect obj reset w = (Ok [], w)).
Proof.
  unfold get_object_changes, bind, gets, lift, modify, ret, inspect_.
  split; [|split; [|split]].
  - intros e w'. destruct (__changes__ w) as [|kc b] eqn:Hb; cbn [dict_bool];
      [discriminate|].
    destruct (inspect (__class__ (heap w obj))) as [m|] eqn:Hm.
    + destruct (build_columns (column_attrs m) []) as [columns|e0] eqn:Hc.
      * destruct reset; discriminate.
      * intros [= <- <-]. split; [reflexivity|]. split; [discriminate|]. right.
        destruct (build_columns_raises _ _ _ Hc) as (-> & key & cols & Hin & Hlen).
        split; [reflexivity|]. exists m, key, cols. auto.
    + intros [= <- <-]. split; [reflexivity|]. split; [discriminate|]. now left.
  - intros Hne Hm. destruct (__changes__ w); [congruence|]. cbn [dict_bool].
    now rewrite Hm.
  - intros Hne m key cols Hm Hin Hlen. destruct (__changes__ w); [congruence|].
    cbn [dict_bool]. rewrite Hm. now rewrite (build_columns_bad _ _ _ Hin Hlen).
  - intros ->. reflexivity.
Qed.

(** The wrapped class whose [id] stands for two columns: the extraction
    raises and keeps the change of [qty]. *)
Lemma get_object_changes_raises_iff_witness :
  get_object_changes Variations.inspect_two_columns 7 true Sample.w_qty
    = (Raise ValueError, Sample.w_qty).
Proof.
  refine (proj1 (proj2 (proj2 (get_object_changes_raises_iff
                                 Variations.inspect_two_columns 7 true Sample.w_qty)))
            _ _ "id" ["id"; "base_id"] eq_refl _ _).
  - discriminate.
  - simpl. now left.
  - discriminate.
Defined.

(** X13.  The extraction never touches the instances or what the sessions
    were given.  Without [reset] it changes nothing at all, and what it
    returns does not depend on [reset]. *)
Theorem get_object_changes_reads inspect obj reset w :
  heap (snd (get_object_changes inspect obj reset w)) = heap w /\
  added (snd (get_object_changes inspect obj reset w)) = added w /\
  snd (get_object_changes inspect obj false w) = w /\
  fst (get_object_changes inspect obj reset w) =
    fst (get_object_changes inspect obj false w).
Proof.
  unfold get_object_changes, bind, gets, lift, modify, ret.
  destruct (dict_bool (__changes__ w)); [|now repeat split].
  destruct (inspect_ inspect (__class__ (heap w obj))) as [m|]; [|now repeat split].
  destruct (build_columns (column_attrs m) []); [|now repeat split].
  destruct reset; now repeat split.
Qed.

Lemma collect_changes_lookup columns col items : forall result,
  dict_get col (collect_changes columns items result) =
  last_changed columns col items (dict_get col result).
Proof.
  induction items as [|[key c] items IH]; intros result; [reflexivity|].
  cbn [collect_changes last_changed]. unfold changed. cbn [snd].
  destruct (py_ne (current c) (previous c)); cbn [andb]; [|apply IH].
  rewrite IH. f_equal.
  destruct (String.eqb (dict_get_default key key columns) col) eqn:E.
  - apply String.eqb_eq in E. subst col. apply dict_get_set_same.
  - apply String.eqb_neq in E. apply dict_get_set_other. congruence.
Qed.

(** X14.  Where reflection succeeds, what the extraction returns under a
    column name is the change of the last buffered attribute, in the order
    of the first writes, that is stored in that column and whose value
    differs; a column with no such attribute is no key of the result.  When
    two changed attributes share a column name the later one is kept. *)
Theorem get_object_changes_lookup inspect obj reset w m columns :
  inspect (__class__ (heap w obj)) = Some m ->
  build_columns (column_attrs m) [] = Ok columns ->
  exists result w1,
    get_object_changes inspect obj reset w = (Ok result, w1) /\
    forall col, dict_get col result = last_changed columns col (__changes__ w) None.
Proof.
  intros Hm Hc.
  destruct (get_object_changes_eq inspect obj reset w m columns Hm Hc) as (w1 & E & _).
  exists (collect_changes columns (__changes__ w) []), w1.
  split; [exact E|]. intros col. apply collect_changes_lookup.
Qed.

(** Item 7 with [ver] (stored in [version]) written 2 and [qty] written
    1, the value it held: one entry under [version], none under [qty]. *)
Lemma get_object_changes_lookup_witness :
  let w := run Sample.inspect_renamed ["ver"; "qty"; "note"] None Sample.LineItem
             [Assign 7 "ver" (SInt 2); Assign 7 "qty" (SInt 1)] Sample.w0 in
  exists result w1,
    get_object_changes Sample.inspect_renamed 7 true w = (Ok result, w1) /\
    dict_get "version" result = Some {| previous := SInt 1; current := SInt 2 |} /\
    dict_get "qty" result = None.
Proof.
  intros w.
  destruct (get_object_changes_lookup Sample.inspect_renamed 7 true w
              Sample.renamed_mapper
              [("id", "id"); ("qty", "qty"); ("ver", "version")] eq_refl eq_refl)
    as (result & w1 & E & Hl).
  exists result, w1. split; [exact E|]. split; rewrite Hl; reflexivity.
Defined.

(** ** Assignments to the identifier fields *)

(** X18.  Whatever names the caller listed, an assignment to [id],
    [created_at], [updated_at] or [version] returns, gives the attribute
    the value and leaves the buffer as it was, also on an instance that has
    no such attribute yet. *)
Theorem setattr_of_identifier_field attributes self key value w :
  In key excluded ->
  exists w',
    __setattr__ attributes self key value w = (Ok tt, w') /\
    dict_get key (attrs (heap w' self)) = Some value /\
    __changes__ w' = __changes__ w /\
    added w' = added w.
Proof.
  intros Hex.
  assert (Ht : mem key (tracked attributes) = false).
  { apply not_true_iff_false. intros H. apply tracked_spec in H. tauto. }
  exists (set_attr self key value w). split; [now apply setattr_untracked|].
  cbn. rewrite Nat.eqb_refl. cbn. split; [apply dict_get_set_same | now split].
Qed.

(** The caller lists [version]; item 7, which has no such attribute, gets
    one. *)
Lemma setattr_of_identifier_field_witness :
  exists w',
    __setattr__ ["version"; "qty"] 7 "version" (SInt 2) Sample.w_qty = (Ok tt, w') /\
    dict_get "version" (attrs (heap w' 7)) = Some (SInt 2) /\
    __changes__ w' = __changes__ Sample.w_qty /\
    added w' = added Sample.w_qty.
Proof.
  apply (setattr_of_identifier_field ["version"; "qty"] 7 "version" (SInt 2) Sample.w_qty).
  simpl. tauto.
Defined.

End TrackingMore.


(* ================================================================== *)
(** * Further properties of the ledger *)

Module LedgerMore.
Import Ledger.

(** X15.  [to_dict] returns exactly when the attribute [change_type] of
    the entry resolves and, for [full], the entry has its actor; otherwise
    it raises [AttributeError].  What it returns is a dictionary with the
    keys [id], [object_id], [object_type], [change_type], [object_version],
    [change], [created_at] and then [user] (for [full]) or [user_id], in
    this order and no other. *)
Theorem to_dict_returns_iff (self : Change) (full : bool) :
  ((exists v, to_dict self full = Ok v) <->
   change_type self <> None /\ (full = true -> user self <> None)) /\
  (forall e, to_dict self full = Raise e -> e = AttributeError) /\
  (forall v, to_dict self full = Ok v ->
     exists d,
       v = PyDict d /\
       map fst d =
         [SStr "id"; SStr "object_id"; SStr "object_type"; SStr "change_type";
          SStr "object_version"; SStr "change"; SStr "created_at";
          SStr (if full then "user" else "user_id")]).
Proof.
  unfold to_dict.
  destruct (change_type self) as [t|]; cbn [res_bind].
  - destruct full.
    + destruct (user self) as [u|].
      * split; [|split].
        -- split; [intros _; split; [discriminate | intros _; discriminate]
                  | intros _; eexists; reflexivity].
        -- discriminate.
        -- intros v [= <-]. eexists. split; reflexivity.
      * split; [|split].
        -- split; [intros [v H]; discriminate H | intros [_ H]; now destruct (H eq_refl)].
        -- now intros e [= <-].
        -- discriminate.
    + split; [|split].
      * split; [intros _; split; [discriminate | discriminate]
               | intros _; eexists; reflexivity].
      * discriminate.
      * intros v [= <-]. eexists. split; reflexivity.
  - split; [|split].
    + split; [intros [v H]; discriminate H | intros [H _]; now destruct H].
    + now intros e [= <-].
    + discriminate.
Qed.

(** A row whose actor is gone: the short form is still available. *)
Lemma to_dict_returns_iff_witness :
  exists v,
    to_dict {| id := SInt 5; object_id := SInt 100; object_type := SStr "orders";
               change_type := Some (Atom (SStr "deleted")); object_version := None;
               user_id := SInt 1000; user := None;
               change := PyDict []; created_at := SNone |} false = Ok v.
Proof.
  apply (proj1 (to_dict_returns_iff _ false)). split; discriminate.
Defined.

(** X16.  Rows about other subjects never bear on the result: for any
    ordering the database applies, [last_change] over a table gives what it
    gives over the table with such rows added at the front or at the back,
    and what it gives over the rows of the subject alone. *)
Theorem last_change_ignores_other_subjects
        (order_by_desc : list Change -> list Change) (query others : list Change)
        (obj : Model) :
  (forall c, In c others -> same_object obj c = false) ->
  last_change order_by_desc (query ++ others) obj = last_change order_by_desc query obj /\
  last_change order_by_desc (others ++ query) obj = last_change order_by_desc query obj /\
  last_change order_by_desc (filter (same_object obj) query) obj
    = last_change order_by_desc query obj.
Proof.
  intros Hothers.
  assert (Hnil : filter (same_object obj) others = []).
  { induction others as [|c others IH]; [reflexivity|].
    cbn [filter]. rewrite (Hothers c) by now left.
    apply IH. intros c' Hc'. apply Hothers. now right. }
  unfold last_change. rewrite !filter_app, Hnil, app_nil_r. cbn [app].
  split; [reflexivity|]. split; [reflexivity|].
  f_equal. f_equal.
  induction query as [|c query IH]; [reflexivity|].
  cbn [filter]. destruct (same_object obj c) eqn:E; cbn [filter]; rewrite ?E, IH; reflexivity.
Qed.

Lemma last_change_ignores_other_subjects_witness :
  last_change sort_desc (sample_table ++ [order_row 9 101 (Some 50%Z)])
    {| Model_id := SInt 100; __tablename__ := "orders" |}
  = last_change sort_desc sample_table
      {| Model_id := SInt 100; __tablename__ := "orders" |}.
Proof.
  refine (proj1 (last_change_ignores_other_subjects sort_desc sample_table
                   [order_row 9 101 (Some 50%Z)]
                   {| Model_id := SInt 100; __tablename__ := "orders" |} _)).
  intros c [<- | []]. reflexivity.
Defined.

(** The first row a conforming database returns is one of the rows and no
    row is above it. *)
Lemma head_is_latest (order_by_desc : list Change -> list Change)
      (version_le : option Z -> option Z -> Prop) (l : list Change) (r : Change) :
  Permutation (order_by_desc l) l ->
  StronglySorted (descending version_le) (order_by_desc l) ->
  (forall v, version_le v v) ->
  hd_error (order_by_desc l) = Some r ->
  In r l /\ forall c, In c l -> version_le (object_version c) (object_version r).
Proof.
  intros P S Hrefl Hhd.
  destruct (order_by_desc l) as [|r' rest]; [discriminate|].
  injection Hhd as ->. split.
  - apply (Permutation_in _ P). now left.
  - intros c Hc. apply (Permutation_in _ (Permutation_sym P)) in Hc.
    destruct Hc as [<- | Hrest]; [apply Hrefl|].
    inversion S as [|? ? _ Hall]; subst.
    rewrite Forall_forall in Hall. exact (Hall c Hrest).
Qed.

(** X17.  The version of the latest entry does not depend on how the
    database orders rows of equal version: two orderings that both return
    the rows sorted by descending version give, for the same table and
    subject, either no entry both, or entries whose versions are each not
    above the other. *)
Theorem last_change_version_is_determined
        (order1 order2 : list Change -> list Change)
        (version_le : option Z -> option Z -> Prop)
        (query : list Change) (obj : Model) :
  (forall l, Permutation (order1 l) l) ->
  (forall l, StronglySorted (descending version_le) (order1 l)) ->
  (forall l, Permutation (order2 l) l) ->
  (forall l, StronglySorted (descending version_le) (order2 l)) ->
  (forall v, version_le v v) ->
  match last_change order1 query obj, last_change order2 query obj with
  | None, None => True
  | Some r1, Some r2 =>
      version_le (object_version r1) (object_version r2) /\
      version_le (object_version r2) (object_version r1)
  | _, _ => False
  end.
Proof.
  intros P1 S1 P2 S2 Hrefl. unfold last_change.
  set (l := filter (same_object obj) query).
  destruct (hd_error (order1 l)) as [r1|] eqn:E1;
    destruct (hd_error (order2 l)) as [r2|] eqn:E2.
  - destruct (head_is_latest order1 version_le l r1 (P1 l) (S1 l) Hrefl E1) as [In1 M1].
    destruct (head_is_latest order2 version_le l r2 (P2 l) (S2 l) Hrefl E2) as [In2 M2].
    split; [apply M2 | apply M1]; assumption.
  - destruct (head_is_latest order1 version_le l r1 (P1 l) (S1 l) Hrefl E1) as [In1 _].
    apply (Permutation_in _ (Permutation_sym (P2 l))) in In1.
    destruct (order2 l); [destruct In1 | discriminate].
  - destruct (head_is_latest order2 version_le l r2 (P2 l) (S2 l) Hrefl E2) as [In2 _].
    apply (Permutation_in _ (Permutation_sym (P1 l))) in In2.
    destruct (order1 l); [destruct In2 | discriminate].
  - exact I.
Qed.

(** Two rows of the order 100 share the highest version; sorting the
    table as it stands and sorting it reversed pick different rows of that
    version. *)
Lemma last_change_version_is_determined_witness :
  match last_change sort_desc (sample_table ++ [order_row 5 100 (Some 3%Z)])
          {| Model_id := SInt 100; __tablename__ := "orders" |},
        last_change (fun l => sort_desc (rev l))
          (sample_table ++ [order_row 5 100 (Some 3%Z)])
          {| Model_id := SInt 100; __tablename__ := "orders" |}
  with
  | None, None => True
  | Some r1, Some r2 =>
      version_leb (object_version r1) (object_version r2) = true /\
      version_leb (object_version r2) (object_version r1) = true
  | _, _ => False
  end.
Proof.
  exact (last_change_version_is_determined sort_desc (fun l => sort_desc (rev l))
           (fun a b => version_leb a b = true)
           (sample_table ++ [order_row 5 100 (Some 3%Z)])
           {| Model_id := SInt 100; __tablename__ := "orders" |}
           LedgerProps.sort_desc_perm LedgerProps.sort_desc_sorted
           (fun l => Permutation_trans (LedgerProps.sort_desc_perm (rev l))
                       (Permutation_sym (Permutation_rev l)))
           (fun l => LedgerProps.sort_desc_sorted (rev l))
           LedgerProps.version_leb_refl).
Defined.

Example last_change_tie :
  last_change sort_desc (sample_table ++ [order_row 5 100 (Some 3%Z)])
    {| Model_id := SInt 100; __tablename__ := "orders" |}
    = Some (order_row 3 100 (Some 3%Z)) /\
  last_change (fun l => sort_desc (rev l)) (sample_table ++ [order_row 5 100 (Some 3%Z)])
    {| Model_id := SInt 100; __tablename__ := "orders" |}
    = Some (order_row 5 100 (Some 3%Z)).
Proof. split; reflexivity. Qed.

End LedgerMore.
